(** * System information of the linux-dpdk platform

    A shallow embedding of [platform/linux-dpdk/odp_system_info.c]:
    the huge page catalogue (default size, mount directory, size
    enumeration), the cache line and CPU census checks of
    [_odp_system_info_init], and the public accessors.

    Files of the platform are inputs; the global data of the process
    ([odp_global_ro], the function-static [default_size], the log) is
    threaded through a small state monad. *)

From Stdlib Require Import ZArith List String Ascii Bool Lia Sorted Permutation.
Import ListNotations.

Open Scope string_scope.
Open Scope list_scope.
Open Scope Z_scope.

(** ** Machine integers *)

(** The C data model the file is compiled for: it fixes the size of a
    pointer and the width of [unsigned long]. *)
Inductive data_model := ILP32 | LP64.

Definition sizeof_pointer (dm : data_model) : nat :=
  match dm with ILP32 => 4%nat | LP64 => 8%nat end.

Definition ULONG_BITS (dm : data_model) : Z :=
  match dm with ILP32 => 32 | LP64 => 64 end.

Definition INT_MAX : Z := 2147483647.
Definition ULLONG_MAX : Z := 18446744073709551615.

(** Conversion to [uint64_t] and to [unsigned long]: reduction modulo
    the width. *)
Definition to_u64 (z : Z) : Z := z mod 2 ^ 64.
Definition to_ulong (dm : data_model) (z : Z) : Z := z mod 2 ^ ULONG_BITS dm.

(** Conversion to [int] as the supported compilers do it: reduction
    modulo 2^32 into the signed range. *)
Definition to_int (z : Z) : Z := (z + 2 ^ 31) mod 2 ^ 32 - 2 ^ 31.

(** ** The C library and the DPDK string helpers *)

Module CLib.

Definition code (c : ascii) : Z := Z.of_N (N_of_ascii c).

Definition isspace (c : ascii) : bool :=
  (code c =? 32) || ((9 <=? code c) && (code c <=? 13)).

Fixpoint skip_spaces (s : string) : string :=
  match s with
  | String c s' => if isspace c then skip_spaces s' else s
  | EmptyString => s
  end.

(** [&s[n]] for an [n] within the string. *)
Fixpoint offset (n : nat) (s : string) : string :=
  match n, s with
  | O, _ => s
  | S n', String _ s' => offset n' s'
  | S _, EmptyString => EmptyString
  end.

(** [strncmp]: the difference of the first pair of bytes that differ
    among the first [n], the end of a string counting as byte 0. *)
Fixpoint strncmp (s1 s2 : string) (n : nat) : Z :=
  match n with
  | O => 0
  | S n' =>
      match s1, s2 with
      | EmptyString, EmptyString => 0
      | EmptyString, String b _ => 0 - code b
      | String a _, EmptyString => code a
      | String a s1', String b s2' =>
          if code a =? code b then strncmp s1' s2' n' else code a - code b
      end
  end.

(** [strstr]: the suffix of the haystack that starts at the first
    occurrence of the needle, [None] for a null result. *)
Fixpoint strstr (haystack needle : string) : option string :=
  if prefix needle haystack then Some haystack
  else match haystack with
       | EmptyString => None
       | String _ h' => strstr h' needle
       end.

(** The value of a digit in a base, letters counting from ten. *)
Definition digit_val (base : Z) (c : ascii) : option Z :=
  let n := code c in
  let v := if (48 <=? n) && (n <=? 57) then n - 48
           else if (97 <=? n) && (n <=? 122) then n - 87
           else if (65 <=? n) && (n <=? 90) then n - 55
           else base in
  if v <? base then Some v else None.

(** The longest run of at most [width] digits: its value, its length
    and what follows it. *)
Fixpoint scan_digits (base : Z) (width : nat) (s : string) (acc : Z) (n : nat)
  : Z * nat * string :=
  match width, s with
  | S w, String c s' =>
      match digit_val base c with
      | Some d => scan_digits base w s' (acc * base + d) (S n)
      | None => (acc, n, s)
      end
  | _, _ => (acc, n, s)
  end.

(** An optional sign: whether one was read and it was a minus, and
    what follows it. *)
Definition split_sign (s : string) : option bool * string :=
  match s with
  | String "-" r => (Some true, r)
  | String "+" r => (Some false, r)
  | _ => (None, s)
  end.

Definition is_minus (sign : option bool) : bool :=
  match sign with Some true => true | _ => false end.

Record strtoull_result := {
  ull_value : Z;
  ull_endptr : string;
  ull_erange : bool
}.

(** [strtoull (nptr, &endptr, 0)]: white space, a sign, a base prefix
    ([0x] sixteen, [0] eight, else ten) and the digits.  Without a
    digit the result is 0 and [endptr] is [nptr] (or the [x] of a bare
    [0x]); a value above [ULLONG_MAX] gives [ULLONG_MAX] and [ERANGE];
    a minus sign negates modulo 2^64. *)
Definition strtoull (nptr : string) : strtoull_result :=
  let (sign, s1) := split_sign (skip_spaces nptr) in
  let '(base, s2, bare) :=
    match s1 with
    | String "0" (String x r) =>
        if (code x =? 120) || (code x =? 88)
        then (16, r, Some (String x r))
        else (8, s1, None)
    | String "0" EmptyString => (8, s1, None)
    | _ => (10, s1, None)
    end in
  let '(v, n, rest) := scan_digits base (String.length s2) s2 0 0%nat in
  match n with
  | O => match bare with
         | Some xr => {| ull_value := 0; ull_endptr := xr; ull_erange := false |}
         | None => {| ull_value := 0; ull_endptr := nptr; ull_erange := false |}
         end
  | S _ =>
      if ULLONG_MAX <? v
      then {| ull_value := ULLONG_MAX; ull_endptr := rest; ull_erange := true |}
      else {| ull_value := to_u64 (if is_minus sign then - v else v);
              ull_endptr := rest; ull_erange := false |}
  end.

(** *** [sscanf] for the formats the file uses *)

Inductive directive :=
| D_space                 (* white space in the format *)
| D_lit (c : ascii)       (* an ordinary character *)
| D_lu (width : nat).     (* %<width>lu *)

Inductive fmt_state := F_text | F_width (w : nat) | F_long (w : nat).

(** The directives of a format made of text, white space and
    [%<width>lu] conversions. *)
Fixpoint parse_format (st : fmt_state) (f : string) : list directive :=
  match f with
  | EmptyString => []
  | String c f' =>
      match st with
      | F_text =>
          if code c =? 37 then parse_format (F_width 0) f'
          else if isspace c then D_space :: parse_format F_text f'
          else D_lit c :: parse_format F_text f'
      | F_width w =>
          match digit_val 10 c with
          | Some d => parse_format (F_width (10 * w + Z.to_nat d)) f'
          | None => parse_format (F_long w) f'      (* the l of lu *)
          end
      | F_long w => D_lu w :: parse_format F_text f' (* the u of lu *)
      end
  end.

(** The [%<width>lu] conversion on input without leading white space:
    a sign, then decimal digits, the sign counting in the width. *)
Definition scan_lu (dm : data_model) (width : nat) (s : string)
  : option (Z * string) :=
  let (sign, s1) := split_sign s in
  let w := match sign with Some _ => pred width | None => width end in
  let '(v, n, rest) := scan_digits 10 w s1 0 0%nat in
  match n with
  | O => None
  | S _ => Some (to_ulong dm (if is_minus sign then - v else v), rest)
  end.

Definition EOF : Z := -1.

Definition scan_stop (done : list Z) (input_end : bool) : Z * list Z :=
  match done, input_end with
  | [], true => (EOF, done)
  | _, _ => (Z.of_nat (List.length done), done)
  end.

Fixpoint run_directives (dm : data_model) (ds : list directive) (s : string)
  (done : list Z) : Z * list Z :=
  match ds with
  | [] => scan_stop done false
  | D_space :: ds' => run_directives dm ds' (skip_spaces s) done
  | D_lit c :: ds' =>
      match s with
      | EmptyString => scan_stop done true
      | String a s' =>
          if code a =? code c then run_directives dm ds' s' done
          else scan_stop done false
      end
  | D_lu w :: ds' =>
      match skip_spaces s with
      | EmptyString => scan_stop done true
      | s1 =>
          match scan_lu dm w s1 with
          | Some (v, rest) => run_directives dm ds' rest (done ++ [v])
          | None => scan_stop done false
          end
      end
  end.

(** [sscanf (str, format, ...)]: the return value and the values
    stored, in order. *)
Definition sscanf (dm : data_model) (str format : string) : Z * list Z :=
  run_directives dm (parse_format F_text format) str [].

(** [sscanf (str, format, &sz) == 1] for a format with one
    conversion: the value stored in [sz] when the comparison holds. *)
Definition sscanf_1 (dm : data_model) (str format : string) : option Z :=
  match sscanf dm str format with
  | (1, sz :: _) => Some sz
  | _ => None
  end.

(** *** [fgets] *)

(** The successive results of [fgets (buf, size, file)] until end of
    file: up to [size - 1] characters each, a newline ending one. *)
Fixpoint fgets_from (size : Z) (room : Z) (cur : string) (s : string)
  : list string :=
  match s with
  | EmptyString =>
      match cur with EmptyString => [] | _ => [cur] end
  | String c s' =>
      let cur' := (cur ++ String c EmptyString)%string in
      if (code c =? 10) || (room <=? 1)
      then cur' :: fgets_from size (size - 1) EmptyString s'
      else fgets_from size (room - 1) cur' s'
  end.

Definition fgets_all (size : Z) (content : string) : list string :=
  fgets_from size (size - 1) EmptyString content.

(** *** [qsort] *)

(** [qsort] as the GNU C library sorts an array that fits its
    temporary buffer: [msort_with_tmp] returns an array of at most one
    element as it is, and otherwise cuts the [n] elements after the
    first [n / 2], sorts the two parts and merges them, taking from
    the first part as long as its head does not compare greater than
    the head of the second. *)
Fixpoint merge (compar : Z -> Z -> Z) (b1 : list Z) : list Z -> list Z :=
  fix merge_b2 (b2 : list Z) : list Z :=
    match b1, b2 with
    | [], _ => b2
    | _, [] => b1
    | x :: b1', y :: b2' =>
        if compar x y <=? 0
        then x :: merge compar b1' b2
        else y :: merge_b2 b2'
    end.

(** [depth] bounds the depth of the recursion; the length of the array
    is enough. *)
Fixpoint msort_with_tmp (depth : nat) (compar : Z -> Z -> Z) (b : list Z)
  : list Z :=
  match depth with
  | O => b
  | S depth' =>
      let n := List.length b in
      if (n <=? 1)%nat then b
      else
        let n1 := Nat.div n 2 in
        merge compar (msort_with_tmp depth' compar (firstn n1 b))
                     (msort_with_tmp depth' compar (skipn n1 b))
  end.

Definition qsort (compar : Z -> Z -> Z) (base : list Z) : list Z :=
  msort_with_tmp (List.length base) compar base.

(** *** DPDK: [rte_strsplit] and [rte_str_to_size] *)

Definition NUL : ascii := "000"%char.

(** The C string that starts at index [i] of a buffer. *)
Fixpoint until_nul (s : string) : string :=
  match s with
  | EmptyString => EmptyString
  | String c s' => if code c =? 0 then EmptyString else String c (until_nul s')
  end.

Definition c_string_at (buf : string) (i : nat) : string :=
  until_nul (offset i buf).

(** The loop of [rte_strsplit]: index [i] walks the string; it stops at
    the end of the string, at [stringlen], or once [maxtokens] tokens
    have been started.  A token starts after each delimiter and each
    delimiter passed is overwritten with a null byte.  The result is
    the buffer after the loop and the start indices of the tokens. *)
Fixpoint strsplit_loop (s : string) (i : nat) (stringlen maxtokens : Z)
  (delim : ascii) (tok : list nat) (tokstart : bool) : string * list nat :=
  match s with
  | EmptyString => (s, tok)
  | String c s' =>
      if (stringlen <=? Z.of_nat i) || (maxtokens <=? Z.of_nat (List.length tok))
      then (s, tok)
      else
        let tok1 := if tokstart then tok ++ [i] else tok in
        if code c =? code delim
        then let (b, t) := strsplit_loop s' (S i) stringlen maxtokens delim tok1 true
             in (String NUL b, t)
        else let (b, t) := strsplit_loop s' (S i) stringlen maxtokens delim tok1 false
             in (String c b, t)
  end.

(** [rte_strsplit (string, stringlen, tokens, maxtokens, delim)]: the
    tokens, whose number is the return value. *)
Definition rte_strsplit (str : string) (stringlen maxtokens : Z)
  (delim : ascii) : list string :=
  let (buf, starts) := strsplit_loop str 0 stringlen maxtokens delim [] true in
  map (c_string_at buf) starts.

(** [rte_str_to_size]: a number with an optional K, M or G suffix. *)
Definition rte_str_to_size (str : string) : Z :=
  let s := skip_spaces str in
  match s with
  | String "-" _ => 0
  | _ =>
      let r := strtoull s in
      if ull_erange r then 0
      else
        let endptr := match ull_endptr r with
                      | String " " e => e
                      | e => e
                      end in
        let size := ull_value r in
        match endptr with
        | String "G" _ | String "g" _ => to_u64 (to_u64 (to_u64 (size * 1024) * 1024) * 1024)
        | String "M" _ | String "m" _ => to_u64 (to_u64 (size * 1024) * 1024)
        | String "K" _ | String "k" _ => to_u64 (size * 1024)
        | _ => size
        end
  end.

End CLib.

(** ** Platform, global data and effects *)

(** [ODP_ERR], [ODP_DBG] and [ODP_PRINT] append the format string of
    the message to the log. *)
Inductive log_entry :=
| LOG_ERR (fmt : string)
| LOG_DBG (fmt : string)
| LOG_PRINT (fmt : string).

(** A C array indexed by [int]: the cells are addressed by [Z] and the
    declared length bounds the valid indices. *)
Definition c_array (A : Type) := Z -> A.

Definition array_set {A} (a : c_array A) (i : Z) (v : A) : c_array A :=
  fun j => if j =? i then v else a j.

(** A checked read of an array of [len] cells: [None] stands for an
    access outside the array. *)
Definition array_get {A} (len : Z) (a : c_array A) (i : Z) : option A :=
  if (0 <=? i) && (i <? len) then Some (a i) else None.

Module Global.

(** Modelled from the spec: the declaration of [system_info_t] is in
    [odp_global_data.h], which is not part of the sources at hand; the
    fields are those of the spec's data model, with the types the code
    uses them at. *)
Record system_info_t := {
  cpu_count : Z;
  cache_line_size : Z;
  page_size : Z;
  cpu_hz_max : c_array Z;
  model_str : c_array string;
  default_cpu_hz : Z;
  default_cpu_hz_max : Z;
  cpu_arch : Z;
  cpu_isa_sw : Z;
  cpu_isa_hw : Z
}.

(** Modelled from the spec: [hugepage_info_t], declared in the same
    header; [None] is a null [default_huge_page_dir]. *)
Record hugepage_info_t := {
  default_huge_page_size : Z;
  default_huge_page_dir : option string
}.

Record odp_global_data_ro_t := {
  num_cpus_installed : Z;
  system_info : system_info_t;
  hugepage_info : hugepage_info_t
}.

(** The mutable data the functions of the file touch:
    [odp_global_ro], the static [default_size] of [get_hugepage_dir],
    the log, and the heap: the strings [strdup] has allocated, which
    their receiver owns, in the order of their allocation. *)
Record state := {
  odp_global_ro : odp_global_data_ro_t;
  default_size : Z;
  log : list log_entry;
  allocated : list string
}.

End Global.
Import Global.

(** What the file reads from its surroundings: the files under [/proc]
    and [/sys] ([None] when [fopen] or [opendir] fails there), the
    configuration file, and the collaborators defined in other files.
    The compile-time constants of [odp_config_internal.h] and of the
    architecture headers are fields as well. *)
Record platform := {
  CONFIG_NUM_CPU_IDS : Z;
  ODP_CACHE_LINE_SIZE : Z;
  ODP_PAGE_SIZE : Z;
  (* the #if branch of systemcpu_cache_line_size that is compiled *)
  cache_line_from_sysfs : bool;
  proc_meminfo : option string;
  proc_mounts : option string;
  proc_cpuinfo : option string;
  cache_lnsz_file : option string;
  (* /sys/devices/system/cpu/cpu<id>/cpufreq/<filename> *)
  cpufreq_file : string -> Z -> option string;
  (* the names readdir yields for /sys/kernel/mm/hugepages *)
  sys_hugepages : option (list string);
  get_nprocs_conf : Z;
  (* _odp_libconfig_lookup_int: the value when the key is found *)
  _odp_libconfig_lookup_int : string -> option Z;
  (* sscanf (str, "%i", &size): the value stored when it returns 1 *)
  sscanf_int : string -> option Z;
  _odp_cpuinfo_parser : string -> system_info_t -> system_info_t;
  _odp_dummy_cpuinfo : system_info_t -> system_info_t
}.

(** The state monad of the file. *)
Definition M (A : Type) := state -> A * state.

Definition ret {A} (a : A) : M A := fun st => (a, st).

Definition bind {A B} (m : M A) (k : A -> M B) : M B :=
  fun st => let (a, st') := m st in k a st'.

Notation "x <- m ;; k" := (bind m (fun x => k))
  (at level 61, m at next level, right associativity).
Notation "m ;; k" := (bind m (fun _ => k))
  (at level 61, right associativity).

Definition get : M state := fun st => (st, st).

Definition emit (e : log_entry) : M unit :=
  fun st => (tt, {| odp_global_ro := odp_global_ro st;
                    default_size := default_size st;
                    log := log st ++ [e];
                    allocated := allocated st |}).

Definition ODP_ERR (fmt : string) : M unit := emit (LOG_ERR fmt).
Definition ODP_DBG (fmt : string) : M unit := emit (LOG_DBG fmt).
Definition ODP_PRINT (fmt : string) : M unit := emit (LOG_PRINT fmt).

Definition set_default_size (v : Z) : M unit :=
  fun st => (tt, {| odp_global_ro := odp_global_ro st;
                    default_size := v;
                    log := log st;
                    allocated := allocated st |}).

Definition set_system_info (si : system_info_t) : M unit :=
  fun st => (tt, {| odp_global_ro :=
                      {| num_cpus_installed := num_cpus_installed (odp_global_ro st);
                         system_info := si;
                         hugepage_info := hugepage_info (odp_global_ro st) |};
                    default_size := default_size st;
                    log := log st;
                    allocated := allocated st |}).

Definition set_hugepage_info (hi : hugepage_info_t) : M unit :=
  fun st => (tt, {| odp_global_ro :=
                      {| num_cpus_installed := num_cpus_installed (odp_global_ro st);
                         system_info := system_info (odp_global_ro st);
                         hugepage_info := hi |};
                    default_size := default_size st;
                    log := log st;
                    allocated := allocated st |}).

(** [strdup (s)]: a new string on the heap that holds a copy of [s];
    the allocation is taken to succeed. *)
Definition strdup (s : string) : M string :=
  fun st => (s, {| odp_global_ro := odp_global_ro st;
                   default_size := default_size st;
                   log := log st;
                   allocated := allocated st ++ [s] |}).

Definition modify_system_info (f : system_info_t -> system_info_t) : M unit :=
  st <- get ;;
  set_system_info (f (system_info (odp_global_ro st))).

Definition nl : string := String "010"%char EmptyString.

Definition PRIu64 (dm : data_model) : string :=
  match dm with ILP32 => "llu" | LP64 => "lu" end.

(** ** The huge page catalogue *)

Module HugePage.
Import CLib.

Section WithPlatform.
Variable dm : data_model.
Variable pf : platform.

(** The [while (fgets ...)] loop of [default_huge_page_size]. *)
Fixpoint meminfo_loop (lines : list string) : M Z :=
  match lines with
  | [] =>
      ODP_ERR ("unable to get default hp size" ++ nl) ;;
      ret 0
  | str :: rest =>
      match sscanf_1 dm str "Hugepagesize:   %8lu kB" with
      | Some sz =>
          ODP_DBG ("defaut hp size is %" ++ PRIu64 dm ++ " kB" ++ nl) ;;
          ret (to_u64 (to_u64 sz * 1024))
      | None => meminfo_loop rest
      end
  end.

Definition default_huge_page_size : M Z :=
  match proc_meminfo pf with
  | None => ret 0
  | Some content => meminfo_loop (fgets_all 1024 content)
  end.

(* <stdio.h> of the GNU C library *)
Definition BUFSIZ : Z := 8192.

(* enum proc_mount_fieldnames *)
Definition DEVICE : nat := 0.
Definition MOUNTPT : nat := 1.
Definition FSTYPE : nat := 2.
Definition OPTIONS : nat := 3.
Definition _FIELDNAME_MAX : Z := 4.

Definition hugetlbfs_str : string := "hugetlbfs".
Definition pagesize_opt : string := "pagesize=".

(** [sizeof (hugetlbfs_str) - 1] and [sizeof (pagesize_opt) - 1]: both
    variables are declared [const char *], so [sizeof] is the size of a
    pointer. *)
Definition htlbfs_str_len : nat := (sizeof_pointer dm - 1)%nat.
Definition pagesize_opt_len : nat := (sizeof_pointer dm - 1)%nat.

Definition token (tokens : list string) (field : nat) : string :=
  nth field tokens EmptyString.

(** How one turn of the [while (fgets ...)] loop of [get_hugepage_dir]
    ends: at the [break] after the parse error, at the [break] after
    [retval = strdup (tokens[MOUNTPT])], with the token to copy, or at
    the end of the body. *)
Inductive line_outcome :=
| L_error
| L_found (mountpt : string)
| L_next.

(** The body of the loop on the line in [buf], with the values of
    [default_size] and [hugepage_sz] at the entry of the loop. *)
Definition mounts_line (default_sz hugepage_sz : Z) (buf : string) : line_outcome :=
  let tokens := rte_strsplit buf BUFSIZ _FIELDNAME_MAX " " in
  if negb (Z.of_nat (List.length tokens) =? _FIELDNAME_MAX) then L_error
  else if strncmp (token tokens FSTYPE) hugetlbfs_str htlbfs_str_len =? 0 then
    match strstr (token tokens OPTIONS) pagesize_opt with
    | None =>
        if hugepage_sz =? default_sz
        then L_found (token tokens MOUNTPT)
        else L_next
    | Some pagesz_str =>
        let pagesz := rte_str_to_size (offset pagesize_opt_len pagesz_str) in
        if pagesz =? hugepage_sz
        then L_found (token tokens MOUNTPT)
        else L_next
    end
  else L_next.

Fixpoint mounts_loop (default_sz hugepage_sz : Z) (lines : list string)
  : M (option string) :=
  match lines with
  | [] => ret None
  | buf :: rest =>
      match mounts_line default_sz hugepage_sz buf with
      | L_error =>
          ODP_ERR ("Error parsing %s" ++ nl) ;;
          ret None
      | L_found mountpt =>
          retval <- strdup mountpt ;;
          ret (Some retval)
      | L_next => mounts_loop default_sz hugepage_sz rest
      end
  end.

(** [if (default_size == 0) default_size = default_huge_page_size ();] *)
Definition refresh_default_size : M unit :=
  st <- get ;;
  if default_size st =? 0
  then v <- default_huge_page_size ;; set_default_size v
  else ret tt.

Definition get_hugepage_dir (hugepage_sz : Z) : M (option string) :=
  match proc_mounts pf with
  | None => ret None
  | Some content =>
      refresh_default_size ;;
      st <- get ;;
      let hugepage_sz := if hugepage_sz =? 0 then default_size st else hugepage_sz in
      mounts_loop (default_size st) hugepage_sz (fgets_all BUFSIZ content)
  end.

(** A line of the mount table that splits into four fields, the third
    of which compares equal to [hugetlbfs_str]. *)
Definition is_hugetlbfs_line (buf : string) : bool :=
  let tokens := rte_strsplit buf BUFSIZ _FIELDNAME_MAX " " in
  (Z.of_nat (List.length tokens) =? _FIELDNAME_MAX)
  && (strncmp (token tokens FSTYPE) hugetlbfs_str htlbfs_str_len =? 0).

(** A directory entry whose name encodes a huge page size: the
    condition of the [readdir] loop. *)
Definition encodes_size (d_name : string) : bool :=
  match sscanf_1 dm d_name "hugepages-%8lukB" with
  | Some _ => true
  | None => false
  end.

(** [size[i] = v] on the caller's array; the caller passes an array of
    at least [num] cells, and a store outside the array, undefined in
    C, is dropped. *)
Fixpoint store (buf : list Z) (i : nat) (v : Z) : list Z :=
  match buf, i with
  | [], _ => []
  | _ :: b, O => v :: b
  | x :: b, S i' => x :: store b i' v
  end.

Definition pagesz_compare (pagesz1 pagesz2 : Z) : Z :=
  to_int (to_u64 (pagesz1 - pagesz2)).

(** The [readdir] loop of [odp_sys_huge_page_size_all]: the array (if
    any), [saved] and [pagesz_num] after it.  [saved] stays below
    [num], so only the increment of [pagesz_num] can wrap. *)
Fixpoint hugepages_loop (entries : list string) (size : option (list Z))
  (num saved pagesz_num : Z) : option (list Z) * Z * Z :=
  match entries with
  | [] => (size, saved, pagesz_num)
  | d_name :: rest =>
      match sscanf_1 dm d_name "hugepages-%8lukB" with
      | Some sz =>
          let '(size', saved') :=
            match size with
            | Some buf =>
                if saved <? num
                then (Some (store buf (Z.to_nat saved) (to_u64 (to_ulong dm (sz * 1024)))),
                      saved + 1)
                else (size, saved)
            | None => (size, saved)
            end in
          hugepages_loop rest size' num saved' (to_int (pagesz_num + 1))
      | None => hugepages_loop rest size num saved pagesz_num
      end
  end.

(** [odp_sys_huge_page_size_all (size, num)]: the return value and the
    caller's array afterwards ([None] for a null [size]). *)
Definition odp_sys_huge_page_size_all (size : option (list Z)) (num : Z)
  : M (Z * option (list Z)) :=
  match sys_hugepages pf with
  | None =>
      ODP_PRINT ("Failed to open /sys/kernel/mm/hugepages: %s" ++ nl) ;;
      ret (0, size)
  | Some entries =>
      let '(size', saved, pagesz_num) := hugepages_loop entries size num 0 0 in
      match size' with
      | Some buf =>
          if 1 <? saved
          then ret (pagesz_num,
                    Some (qsort pagesz_compare (firstn (Z.to_nat saved) buf)
                          ++ skipn (Z.to_nat saved) buf))
          else ret (pagesz_num, size')
      | None => ret (pagesz_num, size')
      end
  end.

Definition system_hp : M Z :=
  sz <- default_huge_page_size ;;
  st <- get ;;
  set_hugepage_info {| Global.default_huge_page_size := sz;
                       default_huge_page_dir :=
                         default_huge_page_dir (hugepage_info (odp_global_ro st)) |} ;;
  dir <- get_hugepage_dir 0 ;;
  st <- get ;;
  set_hugepage_info {| Global.default_huge_page_size :=
                         Global.default_huge_page_size (hugepage_info (odp_global_ro st));
                       default_huge_page_dir := dir |} ;;
  ret 0.

End WithPlatform.
End HugePage.

(** ** CPU census, cache geometry and initialisation *)

Module SysInfo.
Import CLib.

Definition zero_system_info : system_info_t :=
  {| cpu_count := 0; cache_line_size := 0; page_size := 0;
     cpu_hz_max := fun _ => 0; model_str := fun _ => EmptyString;
     default_cpu_hz := 0; default_cpu_hz_max := 0;
     cpu_arch := 0; cpu_isa_sw := 0; cpu_isa_hw := 0 |}.

Definition with_cpu_count (v : Z) (si : system_info_t) : system_info_t :=
  {| cpu_count := v; cache_line_size := cache_line_size si;
     page_size := page_size si; cpu_hz_max := cpu_hz_max si;
     model_str := model_str si; default_cpu_hz := default_cpu_hz si;
     default_cpu_hz_max := default_cpu_hz_max si; cpu_arch := cpu_arch si;
     cpu_isa_sw := cpu_isa_sw si; cpu_isa_hw := cpu_isa_hw si |}.

Definition with_cache_line_size (v : Z) (si : system_info_t) : system_info_t :=
  {| cpu_count := cpu_count si; cache_line_size := v;
     page_size := page_size si; cpu_hz_max := cpu_hz_max si;
     model_str := model_str si; default_cpu_hz := default_cpu_hz si;
     default_cpu_hz_max := default_cpu_hz_max si; cpu_arch := cpu_arch si;
     cpu_isa_sw := cpu_isa_sw si; cpu_isa_hw := cpu_isa_hw si |}.

Definition with_page_size (v : Z) (si : system_info_t) : system_info_t :=
  {| cpu_count := cpu_count si; cache_line_size := cache_line_size si;
     page_size := v; cpu_hz_max := cpu_hz_max si;
     model_str := model_str si; default_cpu_hz := default_cpu_hz si;
     default_cpu_hz_max := default_cpu_hz_max si; cpu_arch := cpu_arch si;
     cpu_isa_sw := cpu_isa_sw si; cpu_isa_hw := cpu_isa_hw si |}.

Definition with_cpu_hz_max (a : c_array Z) (si : system_info_t) : system_info_t :=
  {| cpu_count := cpu_count si; cache_line_size := cache_line_size si;
     page_size := page_size si; cpu_hz_max := a;
     model_str := model_str si; default_cpu_hz := default_cpu_hz si;
     default_cpu_hz_max := default_cpu_hz_max si; cpu_arch := cpu_arch si;
     cpu_isa_sw := cpu_isa_sw si; cpu_isa_hw := cpu_isa_hw si |}.

Definition with_default_cpu_hz (v : Z) (si : system_info_t) : system_info_t :=
  {| cpu_count := cpu_count si; cache_line_size := cache_line_size si;
     page_size := page_size si; cpu_hz_max := cpu_hz_max si;
     model_str := model_str si; default_cpu_hz := v;
     default_cpu_hz_max := default_cpu_hz_max si; cpu_arch := cpu_arch si;
     cpu_isa_sw := cpu_isa_sw si; cpu_isa_hw := cpu_isa_hw si |}.

Definition with_default_cpu_hz_max (v : Z) (si : system_info_t) : system_info_t :=
  {| cpu_count := cpu_count si; cache_line_size := cache_line_size si;
     page_size := page_size si; cpu_hz_max := cpu_hz_max si;
     model_str := model_str si; default_cpu_hz := default_cpu_hz si;
     default_cpu_hz_max := v; cpu_arch := cpu_arch si;
     cpu_isa_sw := cpu_isa_sw si; cpu_isa_hw := cpu_isa_hw si |}.

Section WithPlatform.
Variable dm : data_model.
Variable pf : platform.

Definition sysconf_cpu_count (st : state) : Z :=
  num_cpus_installed (odp_global_ro st).

(** Either branch of the conditional compilation: the analysis of the
    file under [/sys], or the constant. *)
Definition systemcpu_cache_line_size : Z :=
  if cache_line_from_sysfs pf then
    match cache_lnsz_file pf with
    | None => 0
    | Some content =>
        match fgets_all 128 content with
        | [] => 0
        | str :: _ =>
            match sscanf_int pf str with
            | Some size => size
            | None => 0
            end
        end
    end
  else 64.

Definition read_cpufreq (filename : string) (id : Z) : Z :=
  match cpufreq_file pf filename id with
  | None => 0
  | Some content =>
      match fgets_all 256 content with
      | [] => 0
      | buffer :: _ => to_u64 (ull_value (strtoull buffer) * 1000)
      end
  end.

(** [systemcpu (&odp_global_ro.system_info)]. *)
Definition systemcpu : M Z :=
  st <- get ;;
  let r := sysconf_cpu_count st in
  if r =? 0 then
    ODP_ERR ("sysconf_cpu_count failed." ++ nl) ;;
    ret (-1)
  else
    modify_system_info (with_cpu_count r) ;;
    let r := systemcpu_cache_line_size in
    if r =? 0 then
      ODP_ERR ("systemcpu_cache_line_size failed." ++ nl) ;;
      ret (-1)
    else
      modify_system_info (with_cache_line_size r) ;;
      if negb (r =? ODP_CACHE_LINE_SIZE pf) then
        ODP_ERR ("Cache line sizes definitions don't match." ++ nl) ;;
        ret (-1)
      else ret 0.

Definition read_config_file : M Z :=
  match _odp_libconfig_lookup_int pf "system.cpu_mhz" with
  | None =>
      ODP_ERR ("Config option '%s' not found." ++ nl) ;;
      ret (-1)
  | Some val =>
      modify_system_info (with_default_cpu_hz (to_u64 (to_u64 val * 1000000))) ;;
      match _odp_libconfig_lookup_int pf "system.cpu_mhz_max" with
      | None =>
          ODP_ERR ("Config option '%s' not found." ++ nl) ;;
          ret (-1)
      | Some val =>
          modify_system_info (with_default_cpu_hz_max (to_u64 (to_u64 val * 1000000))) ;;
          ret 0
      end
  end.

(** The loop over the CPU ids of [_odp_system_info_init], [n] ids from
    [i] on. *)
Fixpoint cpufreq_loop (n : nat) (i : Z) : M unit :=
  match n with
  | O => ret tt
  | S n' =>
      let cpu_hz_max_i := read_cpufreq "cpuinfo_max_freq" i in
      (if negb (cpu_hz_max_i =? 0)
       then modify_system_info
              (fun si => with_cpu_hz_max (array_set (cpu_hz_max si) i cpu_hz_max_i) si)
       else ret tt) ;;
      cpufreq_loop n' (i + 1)
  end.

(** The return value of [_odp_system_info_init] as the conjunction of
    its fatal checks: both configuration keys, the CPU count and the
    cache line size. *)
Definition init_status (st : state) : Z :=
  match _odp_libconfig_lookup_int pf "system.cpu_mhz",
        _odp_libconfig_lookup_int pf "system.cpu_mhz_max" with
  | Some _, Some _ =>
      if negb (num_cpus_installed (odp_global_ro st) =? 0)
         && negb (systemcpu_cache_line_size =? 0)
         && (systemcpu_cache_line_size =? ODP_CACHE_LINE_SIZE pf)
      then 0 else -1
  | _, _ => -1
  end.

Definition _odp_system_info_init : M Z :=
  set_system_info zero_system_info ;;
  modify_system_info (with_page_size (ODP_PAGE_SIZE pf)) ;;
  rc <- read_config_file ;;
  if negb (rc =? 0) then ret (-1)
  else
    let num_cpus := get_nprocs_conf pf in
    (if CONFIG_NUM_CPU_IDS pf <? num_cpus
     then ODP_ERR ("Unable to handle all %d CPU IDs. Increase CONFIG_NUM_CPU_IDS value."
                   ++ nl)
     else ret tt) ;;
    cpufreq_loop (Z.to_nat (CONFIG_NUM_CPU_IDS pf)) 0 ;;
    match proc_cpuinfo pf with
    | Some file => modify_system_info (_odp_cpuinfo_parser pf file)
    | None => modify_system_info (_odp_dummy_cpuinfo pf)
    end ;;
    rc <- systemcpu ;;
    if negb (rc =? 0) then
      ODP_ERR ("systemcpu failed" ++ nl) ;;
      ret (-1)
    else
      HugePage.system_hp dm pf ;;
      ret 0.

(** *** Public access functions

    They read [odp_global_ro]; a result [None] stands for a read
    outside an array. *)

(** Modelled from the spec: the arrays [cpu_hz_max] and [model_str] of
    [system_info_t] are declared in [odp_global_data.h]; they are
    indexed by CPU id up to the compiled capacity, that is they have
    [CONFIG_NUM_CPU_IDS] cells. *)
Definition system_info_array_len : Z := CONFIG_NUM_CPU_IDS pf.

Definition odp_cpu_hz_max_id (id : Z) (st : state) : option Z :=
  if (0 <=? id) && (id <? CONFIG_NUM_CPU_IDS pf)
  then array_get system_info_array_len (cpu_hz_max (system_info (odp_global_ro st))) id
  else Some 0.

Definition odp_cpu_hz_max (st : state) : option Z :=
  odp_cpu_hz_max_id 0 st.

(** The result of the read, if in bounds, is a string or the null
    pointer ([None]). *)
Definition odp_cpu_model_str_id (id : Z) (st : state) : option (option string) :=
  if (0 <=? id) && (id <? CONFIG_NUM_CPU_IDS pf)
  then option_map Some
         (array_get system_info_array_len (model_str (system_info (odp_global_ro st))) id)
  else Some None.

Definition odp_cpu_model_str (st : state) : option (option string) :=
  odp_cpu_model_str_id 0 st.

Definition odp_sys_huge_page_size (st : state) : Z :=
  Global.default_huge_page_size (hugepage_info (odp_global_ro st)).

Definition odp_sys_page_size (st : state) : Z :=
  page_size (system_info (odp_global_ro st)).

Definition odp_sys_cache_line_size (st : state) : Z :=
  cache_line_size (system_info (odp_global_ro st)).

Definition odp_cpu_count (st : state) : Z :=
  cpu_count (system_info (odp_global_ro st)).

End WithPlatform.
End SysInfo.

(** Two states that differ at most in [system_info] and in the log. *)
Definition same_but_system_info (st st' : state) : Prop :=
  num_cpus_installed (odp_global_ro st') = num_cpus_installed (odp_global_ro st)
  /\ hugepage_info (odp_global_ro st') = hugepage_info (odp_global_ro st)
  /\ default_size st' = default_size st.

(** A decimal numeral given by its digits, most significant first, and
    the number it denotes. *)
Definition digit_char (d : Z) : ascii := ascii_of_N (Z.to_N (48 + d)).

Fixpoint decimal_string (ds : list Z) : string :=
  match ds with
  | [] => EmptyString
  | d :: ds' => String (digit_char d) (decimal_string ds')
  end.

Definition decimal_value (ds : list Z) : Z :=
  fold_left (fun acc d => acc * 10 + d) ds 0.

Definition is_digit (d : Z) : Prop := 0 <= d <= 9.

(** A text that does not go on with a decimal digit. *)
Definition no_digit_ahead (s : string) : Prop :=
  match s with
  | EmptyString => True
  | String c _ => CLib.digit_val 10 c = None
  end.


(** ** Current frequency *)

Module Freq.
Import CLib.

Section WithPlatform.
Variable pf : platform.

(** [odp_cpu_arch_hz_current] of the architecture files and the result
    of [sched_getcpu ()] for the calling thread. *)
Variable odp_cpu_arch_hz_current : Z -> Z.
Variable sched_getcpu : Z.

Definition odp_cpu_hz_current (id : Z) : Z :=
  let cur_hz := SysInfo.read_cpufreq pf "cpuinfo_cur_freq" id in
  if cur_hz =? 0 then odp_cpu_arch_hz_current id else cur_hz.

Definition odp_cpu_hz : Z := odp_cpu_hz_current sched_getcpu.

Definition odp_cpu_hz_id (id : Z) : Z := odp_cpu_hz_current id.

End WithPlatform.
End Freq.

(** ** Notions used in the statements *)

(** The platform with another memory information file. *)
Definition with_meminfo (pf : platform) (meminfo : option string) : platform :=
  {| CONFIG_NUM_CPU_IDS := CONFIG_NUM_CPU_IDS pf;
     ODP_CACHE_LINE_SIZE := ODP_CACHE_LINE_SIZE pf;
     ODP_PAGE_SIZE := ODP_PAGE_SIZE pf;
     cache_line_from_sysfs := cache_line_from_sysfs pf;
     proc_meminfo := meminfo;
     proc_mounts := proc_mounts pf;
     proc_cpuinfo := proc_cpuinfo pf;
     cache_lnsz_file := cache_lnsz_file pf;
     cpufreq_file := cpufreq_file pf;
     sys_hugepages := sys_hugepages pf;
     get_nprocs_conf := get_nprocs_conf pf;
     _odp_libconfig_lookup_int := _odp_libconfig_lookup_int pf;
     sscanf_int := sscanf_int pf;
     _odp_cpuinfo_parser := _odp_cpuinfo_parser pf;
     _odp_dummy_cpuinfo := _odp_dummy_cpuinfo pf |}.

(** The sizes, in bytes as the loop of [odp_sys_huge_page_size_all]
    computes them, of the directory entries whose names encode one, in
    the order of the listing. *)
Fixpoint matching_sizes (dm : data_model) (entries : list string) : list Z :=
  match entries with
  | [] => []
  | d_name :: rest =>
      match CLib.sscanf_1 dm d_name "hugepages-%8lukB" with
      | Some sz => to_u64 (to_ulong dm (sz * 1024)) :: matching_sizes dm rest
      | None => matching_sizes dm rest
      end
  end.









(** A text without a newline. *)
Fixpoint no_newline (s : string) : Prop :=
  match s with
  | EmptyString => True
  | String c s' => CLib.code c <> 10 /\ no_newline s'
  end.

(** A text without a null byte. *)
Fixpoint no_nul (s : string) : Prop :=
  match s with
  | EmptyString => True
  | String c s' => CLib.code c <> 0 /\ no_nul s'
  end.

(** ** Sample platforms *)

Module Sample.

(** The state of a process before initialisation, on a machine with
    four CPUs. *)
Definition boot : state :=
  {| odp_global_ro :=
       {| num_cpus_installed := 4;
          system_info := SysInfo.zero_system_info;
          hugepage_info := {| default_huge_page_size := 0;
                              default_huge_page_dir := None |} |};
     default_size := 0;
     log := [];
     allocated := [] |}.

(** A platform with 64-byte cache lines, given its memory information,
    its mount table and the listing of its huge page directory. *)
Definition machine (meminfo mounts : option string) (hugepages : option (list string))
  : platform :=
  {| CONFIG_NUM_CPU_IDS := 256;
     ODP_CACHE_LINE_SIZE := 64;
     ODP_PAGE_SIZE := 4096;
     cache_line_from_sysfs := true;
     proc_meminfo := meminfo;
     proc_mounts := mounts;
     proc_cpuinfo := None;
     cache_lnsz_file := Some ("64" ++ nl)%string;
     cpufreq_file := fun _ _ => None;
     sys_hugepages := hugepages;
     get_nprocs_conf := 4;
     _odp_libconfig_lookup_int := fun _ => Some 1400;
     sscanf_int := fun str => if String.eqb str ("64" ++ nl)%string then Some 64 else None;
     _odp_cpuinfo_parser := fun _ si => si;
     _odp_dummy_cpuinfo := fun si => si |}.

Definition meminfo_2M : string :=
  "MemTotal:       16316412 kB" ++ nl ++
  "Hugepagesize:   2048 kB" ++ nl ++
  "DirectMap4k:      226256 kB" ++ nl.

Definition mounts_pagesize_2M : string :=
  "none /mnt/huge hugetlbfs rw,pagesize=2M 0 0" ++ nl.

Definition mounts_default : string :=
  "proc /proc proc rw,nosuid 0 0" ++ nl ++
  "none /mnt/huge hugetlbfs rw,relatime 0 0" ++ nl.


Definition mounts_1G_first : string :=
  "none /mnt/1g hugetlbfs rw,pagesize=1G 0 0" ++ nl ++
  "none /mnt/2m hugetlbfs rw,relatime 0 0" ++ nl.

Definition hugepages_2M_16G : list string :=
  ["."; ".."; "hugepages-2048kB"; "hugepages-16777216kB"].

End Sample.

Module SampleFreq.

(** A platform like [Sample.machine] without huge page files, given
    the contents of its cpufreq files. *)
Definition machine (freq : string -> Z -> option string) : platform :=
  {| CONFIG_NUM_CPU_IDS := 4;
     ODP_CACHE_LINE_SIZE := 64;
     ODP_PAGE_SIZE := 4096;
     cache_line_from_sysfs := false;
     proc_meminfo := None;
     proc_mounts := None;
     proc_cpuinfo := None;
     cache_lnsz_file := None;
     cpufreq_file := freq;
     sys_hugepages := None;
     get_nprocs_conf := 4;
     _odp_libconfig_lookup_int := fun _ => Some 1400;
     sscanf_int := fun _ => None;
     _odp_cpuinfo_parser := fun _ si => si;
     _odp_dummy_cpuinfo := fun si => si |}.

(** CPUs 0 and 2 report 2.4 GHz as maximum and 1.2 GHz as current
    frequency; the other CPUs have no cpufreq files. *)
Definition two_cpus (filename : string) (id : Z) : option string :=
  if (id =? 0) || (id =? 2)
  then if String.eqb filename "cpuinfo_max_freq"
       then Some ("2400000" ++ nl)%string
       else Some ("1200000" ++ nl)%string
  else None.

End SampleFreq.

(** ** Properties *)

Import CLib HugePage SysInfo.

(** *** The monad and the loops *)

Lemma to_int_small (z : Z) : - 2 ^ 31 <= z <= INT_MAX -> to_int z = z.
Proof.
  unfold to_int, INT_MAX. intros H.
  rewrite Z.mod_small; lia.
Qed.

Section Loops.
Variable dm : data_model.


Lemma mounts_loop_skip (ds sz : Z) (pre rest : list string) (st : state) :
  Forall (fun l => mounts_line dm ds sz l = L_next) pre ->
  mounts_loop dm ds sz (pre ++ rest) st = mounts_loop dm ds sz rest st.
Proof.
  induction 1 as [|l pre Hl _ IH]; [reflexivity|].
  cbn [app mounts_loop]. rewrite Hl. exact IH.
Qed.

End Loops.

Lemma get_hugepage_dir_eq (dm : data_model) (pf : platform) (content : string)
  (req : Z) (st : state) :
  proc_mounts pf = Some content ->
  get_hugepage_dir dm pf req st =
    let st1 := snd (refresh_default_size dm pf st) in
    mounts_loop dm (default_size st1)
      (if req =? 0 then default_size st1 else req)
      (fgets_all BUFSIZ content) st1.
Proof.
  intros H. unfold get_hugepage_dir. rewrite H.
  unfold bind, get. destruct (refresh_default_size dm pf st) as [[] st1].
  reflexivity.
Qed.

(** *** Default huge page size *)

Lemma scan_stop_range (dm : data_model) (done : list Z) (b : bool) :
  Forall (fun v => 0 <= v < 2 ^ ULONG_BITS dm) done ->
  Forall (fun v => 0 <= v < 2 ^ ULONG_BITS dm) (snd (scan_stop done b)).
Proof. intros H. unfold scan_stop. destruct done, b; exact H. Qed.

Lemma scan_lu_range (dm : data_model) (w : nat) (s rest : string) (v : Z) :
  scan_lu dm w s = Some (v, rest) -> 0 <= v < 2 ^ ULONG_BITS dm.
Proof.
  unfold scan_lu. destruct (split_sign s) as [sign s1].
  destruct (scan_digits 10 _ s1 0 0%nat) as [[x n] r].
  destruct n; [discriminate|]. intros H; injection H as <- _.
  apply Z.mod_pos_bound. destruct dm; reflexivity.
Qed.

Lemma run_directives_range (dm : data_model) (ds : list directive) :
  forall (s : string) (done : list Z),
    Forall (fun v => 0 <= v < 2 ^ ULONG_BITS dm) done ->
    Forall (fun v => 0 <= v < 2 ^ ULONG_BITS dm) (snd (run_directives dm ds s done)).
Proof.
  induction ds as [|d ds IH]; intros s done Hd; cbn [run_directives].
  - now apply scan_stop_range.
  - destruct d as [|c|w].
    + now apply IH.
    + destruct s as [|a s']; [now apply scan_stop_range|].
      destruct (code a =? code c); [now apply IH | now apply scan_stop_range].
    + destruct (skip_spaces s) as [|a s1] eqn:E; [now apply scan_stop_range|].
      destruct (scan_lu dm w (String a s1)) as [[v rest]|] eqn:Hlu;
        [|now apply scan_stop_range].
      apply IH. apply Forall_app; split; [exact Hd|].
      constructor; [|constructor]. eapply scan_lu_range; eassumption.
Qed.

Lemma sscanf_1_range (dm : data_model) (str fmt : string) (v : Z) :
  sscanf_1 dm str fmt = Some v -> 0 <= v < 2 ^ 64.
Proof.
  unfold sscanf_1, sscanf. intros H.
  pose proof (run_directives_range dm (parse_format F_text fmt) str [] (Forall_nil _)) as R.
  destruct (run_directives dm _ str []) as [r vals].
  destruct r as [|p|p]; try discriminate.
  destruct p; try discriminate.
  destruct vals as [|x vals]; [discriminate|].
  injection H as ->. cbn [snd] in R. inversion R as [|? ? Hx _]; subst.
  destruct dm; cbn [ULONG_BITS] in Hx; lia.
Qed.



(** The pattern on a line that gives the size as a decimal numeral of
    at most eight digits: the value stored is the number written. *)
Lemma digit_char_val (d : Z) :
  is_digit d ->
  digit_val 10 (digit_char d) = Some d
  /\ isspace (digit_char d) = false
  /\ split_sign (String (digit_char d) EmptyString)
     = (None, String (digit_char d) EmptyString).
Proof.
  unfold is_digit. intros H.
  assert (C : d = 0 \/ d = 1 \/ d = 2 \/ d = 3 \/ d = 4 \/ d = 5 \/ d = 6
              \/ d = 7 \/ d = 8 \/ d = 9) by lia.
  repeat destruct C as [-> | C]; try subst d; repeat split.
Qed.

Lemma scan_digits_decimal (ds : list Z) :
  forall (w : nat) (rest : string) (acc : Z) (n : nat),
    Forall is_digit ds ->
    (List.length ds <= w)%nat ->
    no_digit_ahead rest ->
    scan_digits 10 w (decimal_string ds ++ rest) acc n
    = (fold_left (fun a d => a * 10 + d) ds acc, (n + List.length ds)%nat, rest).
Proof.
  induction ds as [|d ds IH]; intros w rest acc n Hd Hw Hr.
  - cbn [decimal_string String.append fold_left List.length].
    rewrite Nat.add_0_r.
    destruct w; [reflexivity|]. destruct rest as [|c r]; [reflexivity|].
    cbn [scan_digits]. cbn in Hr. now rewrite Hr.
  - inversion Hd as [|? ? Hd1 Hd2]; subst.
    cbn [List.length] in Hw. destruct w as [|w]; [lia|].
    cbn [decimal_string String.append scan_digits fold_left List.length].
    rewrite (proj1 (digit_char_val d Hd1)).
    rewrite IH; [|assumption|lia|assumption].
    f_equal. f_equal. lia.
Qed.


Lemma decimal_value_bound (ds : list Z) :
  Forall is_digit ds ->
  forall acc : Z, 0 <= acc ->
    0 <= fold_left (fun a d => a * 10 + d) ds acc
         < (acc + 1) * 10 ^ Z.of_nat (List.length ds).
Proof.
  induction 1 as [|d ds Hd _ IH]; intros acc Hacc.
  - cbn. lia.
  - cbn [fold_left List.length]. unfold is_digit in Hd.
    specialize (IH (acc * 10 + d) ltac:(lia)).
    rewrite Nat2Z.inj_succ, Z.pow_succ_r by lia.
    nia.
Qed.













(** *** Initialisation *)

Section Init.
Variable dm : data_model.
Variable pf : platform.

Lemma same_refl (st : state) : same_but_system_info st st.
Proof. repeat split. Qed.

Lemma same_trans (a b c : state) :
  same_but_system_info a b -> same_but_system_info b c -> same_but_system_info a c.
Proof.
  unfold same_but_system_info. intros (H1 & H2 & H3) (K1 & K2 & K3).
  repeat split; congruence.
Qed.

Lemma same_emit (e : log_entry) (st : state) :
  same_but_system_info st (snd (emit e st)).
Proof. repeat split. Qed.

Lemma same_set_system_info (si : system_info_t) (st : state) :
  same_but_system_info st (snd (set_system_info si st)).
Proof. repeat split. Qed.

Lemma same_modify (f : system_info_t -> system_info_t) (st : state) :
  same_but_system_info st (snd (modify_system_info f st)).
Proof. repeat split. Qed.

Lemma same_cpufreq_loop (n : nat) :
  forall (i : Z) (st : state),
    same_but_system_info st (snd (cpufreq_loop pf n i st)).
Proof.
  induction n as [|n IH]; intros i st; cbn [cpufreq_loop].
  - apply same_refl.
  - unfold bind.
    destruct (negb (read_cpufreq pf "cpuinfo_max_freq" i =? 0)).
    + destruct (modify_system_info _ st) as [u s1] eqn:E.
      eapply same_trans; [|apply IH].
      change s1 with (snd (u, s1)). rewrite <- E. apply same_modify.
    + cbn. apply IH.
Qed.

Lemma read_config_file_spec (st : state) :
  same_but_system_info st (snd (read_config_file pf st))
  /\ fst (read_config_file pf st) =
     match _odp_libconfig_lookup_int pf "system.cpu_mhz",
           _odp_libconfig_lookup_int pf "system.cpu_mhz_max" with
     | Some _, Some _ => 0
     | _, _ => -1
     end.
Proof.
  unfold read_config_file.
  destruct (_odp_libconfig_lookup_int pf "system.cpu_mhz");
    [|split; [apply same_emit | reflexivity]].
  destruct (_odp_libconfig_lookup_int pf "system.cpu_mhz_max");
    split; try reflexivity; repeat split.
Qed.

Lemma systemcpu_spec (st : state) :
  same_but_system_info st (snd (systemcpu pf st))
  /\ fst (systemcpu pf st) =
     (if negb (num_cpus_installed (odp_global_ro st) =? 0)
         && negb (systemcpu_cache_line_size pf =? 0)
         && (systemcpu_cache_line_size pf =? ODP_CACHE_LINE_SIZE pf)
      then 0 else -1)
  /\ (fst (systemcpu pf st) = 0 ->
      cache_line_size (system_info (odp_global_ro (snd (systemcpu pf st))))
      = ODP_CACHE_LINE_SIZE pf).
Proof.
  unfold systemcpu, bind, get, sysconf_cpu_count.
  destruct (num_cpus_installed (odp_global_ro st) =? 0);
    [repeat split; discriminate|].
  cbn [negb andb].
  destruct (systemcpu_cache_line_size pf =? 0);
    [repeat split; discriminate|].
  cbn [negb andb].
  destruct (systemcpu_cache_line_size pf =? ODP_CACHE_LINE_SIZE pf) eqn:E; cbn [negb].
  - apply Z.eqb_eq in E. repeat split. intros _. exact E.
  - repeat split. discriminate.
Qed.

Lemma meminfo_loop_frame (lines : list string) (st : state) :
  odp_global_ro (snd (meminfo_loop dm lines st)) = odp_global_ro st
  /\ default_size (snd (meminfo_loop dm lines st)) = default_size st.
Proof.
  induction lines as [|l lines IH]; cbn [meminfo_loop]; [split; reflexivity|].
  destruct (sscanf_1 dm l _); [split; reflexivity | exact IH].
Qed.

Lemma default_huge_page_size_frame (st : state) :
  odp_global_ro (snd (HugePage.default_huge_page_size dm pf st)) = odp_global_ro st
  /\ default_size (snd (HugePage.default_huge_page_size dm pf st)) = default_size st.
Proof.
  unfold HugePage.default_huge_page_size.
  destruct (proc_meminfo pf); [apply meminfo_loop_frame | split; reflexivity].
Qed.

Lemma mounts_loop_frame (ds sz : Z) (lines : list string) (st : state) :
  odp_global_ro (snd (mounts_loop dm ds sz lines st)) = odp_global_ro st
  /\ default_size (snd (mounts_loop dm ds sz lines st)) = default_size st.
Proof.
  induction lines as [|l lines IH]; cbn [mounts_loop]; [split; reflexivity|].
  destruct (mounts_line dm ds sz l); [split; reflexivity | split; reflexivity | exact IH].
Qed.

Lemma refresh_default_size_frame (st : state) :
  odp_global_ro (snd (refresh_default_size dm pf st)) = odp_global_ro st.
Proof.
  unfold refresh_default_size, bind, get.
  destruct (default_size st =? 0); [|reflexivity].
  pose proof (default_huge_page_size_frame st) as [H _].
  destruct (HugePage.default_huge_page_size dm pf st) as [v s1]. exact H.
Qed.

Lemma get_hugepage_dir_frame (req : Z) (st : state) :
  odp_global_ro (snd (get_hugepage_dir dm pf req st)) = odp_global_ro st.
Proof.
  destruct (proc_mounts pf) as [content|] eqn:E.
  - rewrite (get_hugepage_dir_eq dm pf content req st E). cbv zeta.
    rewrite (proj1 (mounts_loop_frame _ _ _ _)).
    apply refresh_default_size_frame.
  - unfold get_hugepage_dir. rewrite E. reflexivity.
Qed.

Lemma system_hp_spec (st : state) :
  fst (system_hp dm pf st) = 0
  /\ system_info (odp_global_ro (snd (system_hp dm pf st)))
     = system_info (odp_global_ro st)
  /\ Global.default_huge_page_size
       (hugepage_info (odp_global_ro (snd (system_hp dm pf st))))
     = fst (HugePage.default_huge_page_size dm pf st)
  /\ exists s : state,
       default_huge_page_dir (hugepage_info (odp_global_ro (snd (system_hp dm pf st))))
       = fst (get_hugepage_dir dm pf 0 s).
Proof.
  unfold system_hp, bind, ret, get.
  pose proof (default_huge_page_size_frame st) as [F1 _].
  destruct (HugePage.default_huge_page_size dm pf st) as [v s1].
  cbn [set_hugepage_info snd fst] in *.
  match goal with
  | |- context [get_hugepage_dir dm pf 0 ?s] =>
      set (s2 := s);
      pose proof (get_hugepage_dir_frame 0 s2) as F2;
      destruct (get_hugepage_dir dm pf 0 s2) as [d s3] eqn:E
  end.
  cbn [snd fst] in *. 
  repeat split.
  - cbn. rewrite F2. cbn. now rewrite F1.
  - cbn. rewrite F2. reflexivity.
  - exists s2. rewrite E. reflexivity.
Qed.

Lemma init_cases (st : state) :
  (fst (_odp_system_info_init dm pf st) = -1 /\ init_status pf st = -1)
  \/ (exists s : state,
        fst (_odp_system_info_init dm pf st) = 0
        /\ init_status pf st = 0
        /\ same_but_system_info st s
        /\ cache_line_size (system_info (odp_global_ro s)) = ODP_CACHE_LINE_SIZE pf
        /\ snd (_odp_system_info_init dm pf st) = snd (system_hp dm pf s)).
Proof.
  unfold _odp_system_info_init, init_status, bind.
  destruct (set_system_info zero_system_info st) as [u1 s1] eqn:E1.
  assert (S1 : same_but_system_info st s1).
  { change s1 with (snd (u1, s1)). rewrite <- E1. apply same_set_system_info. }
  destruct (modify_system_info (with_page_size (ODP_PAGE_SIZE pf)) s1) as [u2 s2] eqn:E2.
  assert (S2 : same_but_system_info st s2).
  { eapply same_trans; [exact S1|].
    change s2 with (snd (u2, s2)). rewrite <- E2. apply same_modify. }
  pose proof (read_config_file_spec s2) as [S3 R3].
  destruct (read_config_file pf s2) as [rc s3]. cbn [fst snd] in S3, R3.
  assert (S3' : same_but_system_info st s3) by (eapply same_trans; eassumption).
  destruct (_odp_libconfig_lookup_int pf "system.cpu_mhz");
    [|subst rc; left; split; reflexivity].
  destruct (_odp_libconfig_lookup_int pf "system.cpu_mhz_max");
    [|subst rc; left; split; reflexivity].
  subst rc. cbn [Z.eqb negb].
  match goal with
  | |- context [(if ?c then ODP_ERR ?m else ret tt) s3] =>
      destruct ((if c then ODP_ERR m else ret tt) s3) as [u4 s4] eqn:E4
  end.
  assert (S4 : same_but_system_info st s4).
  { eapply same_trans; [exact S3'|].
    change s4 with (snd (u4, s4)). rewrite <- E4.
    destruct (CONFIG_NUM_CPU_IDS pf <? get_nprocs_conf pf);
      [apply same_emit | apply same_refl]. }
  pose proof (same_cpufreq_loop (Z.to_nat (CONFIG_NUM_CPU_IDS pf)) 0 s4) as S5.
  destruct (cpufreq_loop pf (Z.to_nat (CONFIG_NUM_CPU_IDS pf)) 0 s4) as [u5 s5].
  cbn [snd] in S5.
  destruct (match proc_cpuinfo pf with
            | Some file => modify_system_info (_odp_cpuinfo_parser pf file)
            | None => modify_system_info (_odp_dummy_cpuinfo pf)
            end s5) as [u6 s6] eqn:E6.
  assert (S6 : same_but_system_info st s6).
  { eapply same_trans; [exact S4|]. eapply same_trans; [exact S5|].
    change s6 with (snd (u6, s6)). rewrite <- E6.
    destruct (proc_cpuinfo pf); apply same_modify. }
  pose proof (systemcpu_spec s6) as (S7 & R7 & C7).
  destruct (systemcpu pf s6) as [rc s7]. cbn [fst snd] in S7, R7, C7.
  assert (N : num_cpus_installed (odp_global_ro s6)
              = num_cpus_installed (odp_global_ro st)) by apply S6.
  rewrite N in R7.
  destruct (rc =? 0) eqn:Hrc; cbn [negb].
  - apply Z.eqb_eq in Hrc. right. exists s7.
    pose proof (system_hp_spec s7) as [H0 _].
    destruct (system_hp dm pf s7) as [r s8]. cbn [fst snd] in *.
    split; [reflexivity|]. split; [congruence|].
    split; [eapply same_trans; [exact S6 | exact S7]|].
    split; [exact (C7 Hrc) | reflexivity].
  - left. split; [reflexivity|].
    apply Z.eqb_neq in Hrc. rewrite <- R7.
    destruct (negb _ && negb _ && _); [congruence | exact R7].
Qed.

End Init.

(** *** Default huge page size and the memory information *)




(** *** Mount directory resolution *)









(** The table of the witness without the short line does have a
    directory for the default size: the line after the short one would
    have matched. *)
Example mounts_default_found :
  fst (get_hugepage_dir LP64
         (Sample.machine (Some Sample.meminfo_2M) (Some Sample.mounts_default) None)
         0 Sample.boot) = Some "/mnt/huge"%string.
Proof. vm_compute. reflexivity. Qed.


Lemma mounts_line_default (dm : data_model) (ds sz : Z) (buf dev mnt fs opts : string) :
  rte_strsplit buf BUFSIZ _FIELDNAME_MAX " " = [dev; mnt; fs; opts] ->
  strncmp fs hugetlbfs_str (htlbfs_str_len dm) = 0 ->
  strstr opts pagesize_opt = None ->
  mounts_line dm ds sz buf = if sz =? ds then L_found mnt else L_next.
Proof.
  intros Hsplit Hfs Hopt. unfold mounts_line. rewrite Hsplit.
  cbn [List.length Z.of_nat Pos.of_succ_nat Pos.succ _FIELDNAME_MAX Z.eqb Pos.eqb negb].
  unfold token. cbn [nth FSTYPE OPTIONS MOUNTPT].
  rewrite Hfs, Hopt. reflexivity.
Qed.



(** *** The explicit page size option *)

(** With the lengths taken from the size of a pointer, the text handed
    to [rte_str_to_size] still starts inside the option name, and its
    value is 0 whatever size the option gives. *)
Lemma explicit_pagesize_reads_zero (dm : data_model) (value : string) :
  rte_str_to_size (offset (pagesize_opt_len dm) (pagesize_opt ++ value)) = 0.
Proof. destruct dm; reflexivity. Qed.

(** C1 at the spec's own example: for the mount table line
    [none /mnt/huge hugetlbfs rw,pagesize=2M 0 0] and the requested
    size 2097152, [get_hugepage_dir] returns the null pointer, and the
    reason is the value 0 read for the option. *)
Theorem get_hugepage_dir_pagesize_2M_not_found (dm : data_model) (st : state) :
  let pf := Sample.machine (Some Sample.meminfo_2M)
              (Some Sample.mounts_pagesize_2M) None in
  rte_strsplit Sample.mounts_pagesize_2M BUFSIZ _FIELDNAME_MAX " "
  = ["none"; "/mnt/huge"; "hugetlbfs"; "rw,pagesize=2M 0 0" ++ nl]%string
  /\ strstr ("rw,pagesize=2M 0 0" ++ nl) pagesize_opt
     = Some ("pagesize=2M 0 0" ++ nl)%string
  /\ rte_str_to_size (offset (pagesize_opt_len dm) ("pagesize=2M 0 0" ++ nl)) = 0
  /\ rte_str_to_size (offset (String.length pagesize_opt) ("pagesize=2M 0 0" ++ nl))
     = 2097152
  /\ fst (get_hugepage_dir dm pf 2097152 st) = None.
Proof.
  cbv zeta. split; [vm_compute; reflexivity|]. split; [reflexivity|].
  split; [destruct dm; reflexivity|]. split; [reflexivity|].
  rewrite (get_hugepage_dir_eq dm
             (Sample.machine (Some Sample.meminfo_2M)
                (Some Sample.mounts_pagesize_2M) None)
             Sample.mounts_pagesize_2M 2097152 st eq_refl).
  cbv zeta. cbn [Z.eqb].
  set (ds := default_size _). set (st1 := snd _).
  change (fgets_all BUFSIZ Sample.mounts_pagesize_2M)
    with [Sample.mounts_pagesize_2M].
  cbn [mounts_loop].
  assert (L : mounts_line dm ds 2097152 Sample.mounts_pagesize_2M = L_next).
  { destruct dm; reflexivity. }
  rewrite L. reflexivity.
Qed.

(** *** The huge page information after initialisation *)


(** *** Cache line size *)

(** C6.  Initialisation succeeds only if the cache line size probed
    equals [ODP_CACHE_LINE_SIZE]: after a successful initialisation
    [odp_sys_cache_line_size] returns the constant, and initialisation
    returns -1 whenever the probe gives 0 or another value than the
    constant. *)
Theorem init_cache_line_size (dm : data_model) (pf : platform) (st : state) :
  (fst (_odp_system_info_init dm pf st) = 0 ->
   systemcpu_cache_line_size pf = ODP_CACHE_LINE_SIZE pf
   /\ odp_sys_cache_line_size (snd (_odp_system_info_init dm pf st))
      = ODP_CACHE_LINE_SIZE pf)
  /\ (systemcpu_cache_line_size pf = 0
      \/ systemcpu_cache_line_size pf <> ODP_CACHE_LINE_SIZE pf ->
      fst (_odp_system_info_init dm pf st) = -1).
Proof.
  destruct (init_cases dm pf st) as [[H1 H2] | (s & H1 & H2 & _ & Hc & Hs)].
  - split; [rewrite H1; discriminate | intros _; exact H1].
  - unfold init_status in H2.
    destruct (_odp_libconfig_lookup_int pf "system.cpu_mhz"); [|discriminate].
    destruct (_odp_libconfig_lookup_int pf "system.cpu_mhz_max"); [|discriminate].
    destruct (negb (num_cpus_installed (odp_global_ro st) =? 0)); [|discriminate].
    destruct (systemcpu_cache_line_size pf =? 0) eqn:E0; [discriminate|].
    destruct (systemcpu_cache_line_size pf =? ODP_CACHE_LINE_SIZE pf) eqn:E1;
      [|discriminate].
    apply Z.eqb_neq in E0. apply Z.eqb_eq in E1.
    split.
    + intros _. split; [exact E1|].
      unfold odp_sys_cache_line_size. rewrite Hs.
      destruct (system_hp_spec dm pf s) as (_ & Hsi & _). rewrite Hsi. exact Hc.
    + intros [H|H]; contradiction.
Qed.

Lemma init_cache_line_size_witness :
  odp_sys_cache_line_size
    (snd (_odp_system_info_init LP64
            (Sample.machine (Some Sample.meminfo_2M) (Some Sample.mounts_default) None)
            Sample.boot)) = 64.
Proof.
  apply (init_cache_line_size LP64
           (Sample.machine (Some Sample.meminfo_2M) (Some Sample.mounts_default) None)
           Sample.boot).
  vm_compute. reflexivity.
Defined.

(** *** Accessors by CPU id *)

(** C7.  For a CPU id outside [0, CONFIG_NUM_CPU_IDS),
    [odp_cpu_hz_max_id] returns 0 and [odp_cpu_model_str_id] returns
    the null pointer; for every id at all, neither reads outside the
    arrays. *)
Theorem cpu_id_out_of_range (pf : platform) (st : state) (id : Z) :
  (~ (0 <= id < CONFIG_NUM_CPU_IDS pf) ->
   odp_cpu_hz_max_id pf id st = Some 0
   /\ odp_cpu_model_str_id pf id st = Some None)
  /\ odp_cpu_hz_max_id pf id st <> None
  /\ odp_cpu_model_str_id pf id st <> None.
Proof.
  unfold odp_cpu_hz_max_id, odp_cpu_model_str_id, array_get, system_info_array_len.
  destruct ((0 <=? id) && (id <? CONFIG_NUM_CPU_IDS pf)) eqn:E.
  - split; [|split; discriminate].
    intros H. apply andb_true_iff in E as [E1 E2].
    apply Z.leb_le in E1. apply Z.ltb_lt in E2. lia.
  - split; [intros _; split; reflexivity | split; discriminate].
Qed.

Lemma cpu_id_out_of_range_witness :
  odp_cpu_hz_max_id (Sample.machine None None None) 256 Sample.boot = Some 0
  /\ odp_cpu_model_str_id (Sample.machine None None None) (-1) Sample.boot = Some None.
Proof.
  split.
  - apply (cpu_id_out_of_range (Sample.machine None None None) Sample.boot 256).
    cbn. lia.
  - apply (cpu_id_out_of_range (Sample.machine None None None) Sample.boot (-1)).
    cbn. lia.
Defined.

(** C10.  The accessors without an id are the accessors by id at
    CPU 0, in every state: [odp_cpu_hz_max] returns what
    [odp_cpu_hz_max_id (0)] returns and [odp_cpu_model_str] what
    [odp_cpu_model_str_id (0)] returns, that is the cells of CPU 0
    when the arrays have any. *)
Theorem accessors_delegate_to_cpu0 (pf : platform) (st : state) :
  odp_cpu_hz_max pf st = odp_cpu_hz_max_id pf 0 st
  /\ odp_cpu_model_str pf st = odp_cpu_model_str_id pf 0 st
  /\ odp_cpu_hz_max pf st
     = Some (if 0 <? CONFIG_NUM_CPU_IDS pf
             then cpu_hz_max (system_info (odp_global_ro st)) 0 else 0)
  /\ odp_cpu_model_str pf st
     = Some (if 0 <? CONFIG_NUM_CPU_IDS pf
             then Some (model_str (system_info (odp_global_ro st)) 0) else None).
Proof.
  split; [reflexivity|]. split; [reflexivity|].
  unfold odp_cpu_hz_max, odp_cpu_model_str, odp_cpu_hz_max_id, odp_cpu_model_str_id,
    array_get, system_info_array_len.
  cbn [Z.leb Z.compare andb].
  destruct (0 <? CONFIG_NUM_CPU_IDS pf); split; reflexivity.
Qed.

(** *** Enumeration of the huge page sizes *)

Section Enumeration.
Variable dm : data_model.

Lemma hugepages_loop_full (entries : list string) :
  forall (size : option (list Z)) (num saved cnt : Z),
    num <= saved ->
    fst (hugepages_loop dm entries size num saved cnt) = (size, saved).
Proof.
  induction entries as [|e entries IH]; intros size num saved cnt H;
    cbn [hugepages_loop]; [reflexivity|].
  destruct (sscanf_1 dm e _); [|now apply IH].
  destruct size as [buf|].
  - destruct (saved <? num) eqn:E; [apply Z.ltb_lt in E; lia | now apply IH].
  - now apply IH.
Qed.

Lemma hugepages_loop_null (entries : list string) :
  forall (num saved cnt : Z),
    fst (hugepages_loop dm entries None num saved cnt) = (None, saved).
Proof.
  induction entries as [|e entries IH]; intros num saved cnt;
    cbn [hugepages_loop]; [reflexivity|].
  destruct (sscanf_1 dm e _); apply IH.
Qed.

Lemma hugepages_loop_count (entries : list string) :
  forall (size : option (list Z)) (num saved cnt : Z),
    0 <= cnt ->
    cnt + Z.of_nat (List.length entries) <= INT_MAX ->
    snd (hugepages_loop dm entries size num saved cnt)
    = cnt + Z.of_nat (List.length (filter (encodes_size dm) entries)).
Proof.
  induction entries as [|e entries IH]; intros size num saved cnt H0 H;
    cbn [hugepages_loop filter List.length]; [cbn; lia|].
  cbn [List.length] in H. unfold encodes_size at 1.
  destruct (sscanf_1 dm e _) as [sz|].
  - assert (W : to_int (cnt + 1) = cnt + 1).
    { apply to_int_small. unfold INT_MAX in *. lia. }
    rewrite W.
    destruct (match size with
              | Some buf =>
                  if saved <? num
                  then (Some (store buf (Z.to_nat saved)
                                (to_u64 (to_ulong dm (sz * 1024)))), saved + 1)
                  else (size, saved)
              | None => (size, saved)
              end) as [size' saved'].
    rewrite IH; [cbn [List.length]; lia | lia | lia].
  - rewrite IH; lia.
Qed.

End Enumeration.

(** C8.  For a directory listing (of fewer than 2^31 entries, so that
    the [int] counter does not wrap), [odp_sys_huge_page_size_all]
    returns the number of entries whose names encode a size, whatever
    the array and the capacity given; with a capacity of 0 (or less),
    and likewise with a null array, the array is left as it was.  The
    call changes nothing else. *)
Theorem huge_page_size_all_count (dm : data_model) (pf : platform)
  (entries : list string) (size : option (list Z)) (num : Z) (st : state) :
  sys_hugepages pf = Some entries ->
  Z.of_nat (List.length entries) <= INT_MAX ->
  fst (fst (odp_sys_huge_page_size_all dm pf size num st))
  = Z.of_nat (List.length (filter (encodes_size dm) entries))
  /\ (num <= 0 -> snd (fst (odp_sys_huge_page_size_all dm pf size num st)) = size)
  /\ (size = None -> snd (fst (odp_sys_huge_page_size_all dm pf size num st)) = None)
  /\ snd (odp_sys_huge_page_size_all dm pf size num st) = st.
Proof.
  intros Hdir Hlen. unfold odp_sys_huge_page_size_all. rewrite Hdir.
  pose proof (hugepages_loop_count dm entries size num 0 0 (Z.le_refl 0) Hlen) as C.
  pose proof (hugepages_loop_full dm entries size num 0 0) as F.
  assert (N : size = None ->
              fst (hugepages_loop dm entries size num 0 0) = (None, 0)).
  { intros ->. apply hugepages_loop_null. }
  destruct (hugepages_loop dm entries size num 0 0) as [[size' saved] cnt].
  cbn [fst snd] in C, F, N. rewrite Z.add_0_l in C. subst cnt.
  split; [|split; [|split]].
  - destruct size' as [buf|]; [destruct (1 <? saved)|]; reflexivity.
  - intros Hnum. specialize (F Hnum). injection F as -> ->.
    destruct size as [buf|]; reflexivity.
  - intros Hnull. specialize (N Hnull). injection N as -> ->. reflexivity.
  - destruct size' as [buf|]; [destruct (1 <? saved)|]; reflexivity.
Qed.

Lemma huge_page_size_all_count_witness :
  fst (odp_sys_huge_page_size_all LP64
         (Sample.machine None None (Some Sample.hugepages_2M_16G))
         (Some [7; 7]) 0 Sample.boot)
  = (2, Some [7; 7]).
Proof.
  destruct (huge_page_size_all_count LP64
              (Sample.machine None None (Some Sample.hugepages_2M_16G))
              Sample.hugepages_2M_16G (Some [7; 7]) 0 Sample.boot eq_refl)
    as (H1 & H2 & _).
  - vm_compute. discriminate.
  - specialize (H2 (Z.le_refl 0)).
    destruct (fst (odp_sys_huge_page_size_all LP64
                     (Sample.machine None None (Some Sample.hugepages_2M_16G))
                     (Some [7; 7]) 0 Sample.boot)) as [n b].
    cbn [fst snd] in H1, H2. rewrite H1, H2. reflexivity.
Defined.

(** C5 at two sizes the kernel offers together: for the entries
    [hugepages-2048kB] and [hugepages-16777216kB] and an array of two
    cells, the array returned holds 17179869184 before 2097152.  The
    difference of the two sizes does not fit an [int], and
    [pagesz_compare] reports the larger size as the smaller. *)
Theorem huge_page_size_all_not_ascending (st : state) :
  pagesz_compare 17179869184 2097152 < 0
  /\ pagesz_compare 2097152 17179869184 > 0
  /\ fst (odp_sys_huge_page_size_all LP64
            (Sample.machine None None (Some Sample.hugepages_2M_16G))
            (Some [0; 0]) 2 st)
     = (2, Some [17179869184; 2097152]).
Proof. repeat split. Qed.

(** Where the comparison is right: for sizes less than 2^31 apart the
    comparator is the difference, and [qsort] with it sorts a list of
    such sizes in ascending order. *)
Lemma pagesz_compare_small (x y : Z) :
  - 2 ^ 31 <= x - y < 2 ^ 31 -> pagesz_compare x y = x - y.
Proof.
  intros H. unfold pagesz_compare, to_int, to_u64.
  rewrite <- Z.add_mod_idemp_l by discriminate.
  rewrite (Z.mod_mod_divide (x - y) (2 ^ 64) (2 ^ 32))
    by (exists (2 ^ 32); reflexivity).
  rewrite Z.add_mod_idemp_l by discriminate.
  rewrite Z.mod_small; lia.
Qed.

Lemma merge_perm (compar : Z -> Z -> Z) (b1 : list Z) :
  forall b2 : list Z, Permutation (merge compar b1 b2) (b1 ++ b2).
Proof.
  induction b1 as [|x b1 IH1]; intros b2.
  - destruct b2; reflexivity.
  - induction b2 as [|y b2 IH2]; [cbn; now rewrite app_nil_r|].
    cbn [merge]. destruct (compar x y <=? 0).
    + cbn [app]. constructor. apply IH1.
    + fold (merge compar (x :: b1) b2). rewrite IH2.
      cbn [app]. rewrite perm_swap. constructor.
      apply Permutation_middle.
Qed.

Lemma msort_perm (compar : Z -> Z -> Z) (depth : nat) :
  forall b : list Z, Permutation (msort_with_tmp depth compar b) b.
Proof.
  induction depth as [|d IH]; intros b; cbn [msort_with_tmp]; [reflexivity|].
  destruct (List.length b <=? 1)%nat; [reflexivity|].
  rewrite merge_perm, !IH. now rewrite firstn_skipn.
Qed.

Lemma qsort_perm (compar : Z -> Z -> Z) (l : list Z) :
  Permutation l (qsort compar l).
Proof. symmetry. apply msort_perm. Qed.

Lemma qsort_In (compar : Z -> Z -> Z) (y : Z) (l : list Z) :
  In y (qsort compar l) -> In y l.
Proof.
  apply Permutation_in. symmetry. apply qsort_perm.
Qed.

Lemma merge_sorted (b1 : list Z) :
  forall b2 : list Z,
    (forall x y, In x (b1 ++ b2) -> In y (b1 ++ b2) -> - 2 ^ 31 <= x - y < 2 ^ 31) ->
    StronglySorted Z.le b1 -> StronglySorted Z.le b2 ->
    StronglySorted Z.le (merge pagesz_compare b1 b2).
Proof.
  induction b1 as [|x b1 IH1]; intros b2 Hc S1 S2.
  - destruct b2; exact S2.
  - induction b2 as [|y b2 IH2]; [exact S1|].
    cbn [merge].
    rewrite (pagesz_compare_small x y)
      by (apply Hc; [now left | apply in_or_app; right; now left]).
    apply StronglySorted_inv in S1 as [S1 F1].
    apply StronglySorted_inv in S2 as [S2 F2].
    destruct (x - y <=? 0) eqn:E.
    + apply Z.leb_le in E. constructor.
      * apply IH1; [|exact S1|now constructor].
        intros a b Ha Hb. apply Hc; now right.
      * apply (Permutation_Forall (Permutation_sym (merge_perm pagesz_compare b1 (y :: b2)))).
        apply Forall_app. split; [exact F1|].
        constructor; [lia|]. eapply Forall_impl; [|exact F2]. intros a Ha. lia.
    + apply Z.leb_gt in E. fold (merge pagesz_compare (x :: b1) b2). constructor.
      * apply IH2; [|exact S2].
        intros a b Ha Hb. apply Hc.
        -- apply in_app_or in Ha as [Ha|Ha]; apply in_or_app;
             [now left | right; now right].
        -- apply in_app_or in Hb as [Hb|Hb]; apply in_or_app;
             [now left | right; now right].
      * apply (Permutation_Forall (Permutation_sym (merge_perm pagesz_compare (x :: b1) b2))).
        apply Forall_app. split; [|exact F2].
        constructor; [lia|]. eapply Forall_impl; [|exact F1]. intros a Ha. lia.
Qed.

Lemma msort_sorted (depth : nat) :
  forall b : list Z,
    (List.length b <= depth)%nat ->
    (forall x y, In x b -> In y b -> - 2 ^ 31 <= x - y < 2 ^ 31) ->
    StronglySorted Z.le (msort_with_tmp depth pagesz_compare b).
Proof.
  induction depth as [|d IH]; intros b Hlen Hc; cbn [msort_with_tmp].
  - destruct b; [constructor | cbn in Hlen; lia].
  - destruct (List.length b <=? 1)%nat eqn:E.
    + apply Nat.leb_le in E.
      destruct b as [|x [|y b]]; [constructor | repeat constructor | cbn in E; lia].
    + apply Nat.leb_gt in E.
      assert (Half : (1 <= Nat.div (List.length b) 2 < List.length b)%nat).
      { split; [apply Nat.div_le_lower_bound; lia | apply Nat.div_lt; lia]. }
      assert (In1 : forall x, In x (firstn (Nat.div (List.length b) 2) b) -> In x b).
      { intros x Hx. rewrite <- (firstn_skipn (Nat.div (List.length b) 2) b).
        apply in_or_app. now left. }
      assert (In2 : forall x, In x (skipn (Nat.div (List.length b) 2) b) -> In x b).
      { intros x Hx. rewrite <- (firstn_skipn (Nat.div (List.length b) 2) b).
        apply in_or_app. now right. }
      apply merge_sorted.
      * intros x y Hx Hy. apply Hc.
        -- apply in_app_or in Hx as [Hx|Hx];
             apply (Permutation_in _ (msort_perm _ _ _)) in Hx; auto.
        -- apply in_app_or in Hy as [Hy|Hy];
             apply (Permutation_in _ (msort_perm _ _ _)) in Hy; auto.
      * apply IH; [rewrite length_firstn; lia | auto].
      * apply IH; [rewrite length_skipn; lia | auto].
Qed.

Lemma qsort_pagesz_sorted (l : list Z) :
  (forall x y, In x l -> In y l -> - 2 ^ 31 <= x - y < 2 ^ 31) ->
  Sorted Z.le (qsort pagesz_compare l).
Proof.
  intros H. apply StronglySorted_Sorted, msort_sorted; [apply Nat.le_refl | exact H].
Qed.

(** ** Further properties *)

(** *** Configuration and initialisation *)

(** [read_config_file]: the result is 0 exactly when both keys are
    found; a value found is stored times 1000000, without overflow when
    it is a non-negative [int]; when only the second key is missing the
    first value has been stored already; every failure logs once. *)
Theorem read_config_file_result (pf : platform) (st : state) :
  let r := read_config_file pf st in
  let si := system_info (odp_global_ro (snd r)) in
  match _odp_libconfig_lookup_int pf "system.cpu_mhz",
        _odp_libconfig_lookup_int pf "system.cpu_mhz_max" with
  | Some a, Some b =>
      fst r = 0
      /\ default_cpu_hz si = to_u64 (to_u64 a * 1000000)
      /\ default_cpu_hz_max si = to_u64 (to_u64 b * 1000000)
      /\ (0 <= a <= INT_MAX -> default_cpu_hz si = a * 1000000)
      /\ (0 <= b <= INT_MAX -> default_cpu_hz_max si = b * 1000000)
      /\ log (snd r) = log st
  | Some a, None =>
      fst r = -1
      /\ default_cpu_hz si = to_u64 (to_u64 a * 1000000)
      /\ default_cpu_hz_max si
         = default_cpu_hz_max (system_info (odp_global_ro st))
      /\ log (snd r) = log st ++ [LOG_ERR ("Config option '%s' not found." ++ nl)]
  | None, _ =>
      fst r = -1
      /\ odp_global_ro (snd r) = odp_global_ro st
      /\ log (snd r) = log st ++ [LOG_ERR ("Config option '%s' not found." ++ nl)]
  end.
Proof.
  assert (X : forall v, 0 <= v <= INT_MAX -> to_u64 (to_u64 v * 1000000) = v * 1000000).
  { intros v Hv. unfold to_u64, INT_MAX in *.
    rewrite (Z.mod_small v) by lia. apply Z.mod_small.
    change (2 ^ 64) with 18446744073709551616. lia. }
  cbv zeta. unfold read_config_file.
  destruct (_odp_libconfig_lookup_int pf "system.cpu_mhz") as [a|];
    [|repeat split].
  destruct (_odp_libconfig_lookup_int pf "system.cpu_mhz_max") as [b|];
    cbn; repeat split; intros; now apply X.
Qed.

Section InitShape.
Variable dm : data_model.
Variable pf : platform.

Lemma systemcpu_cpu_count (st : state) :
  fst (systemcpu pf st) = 0 ->
  cpu_count (system_info (odp_global_ro (snd (systemcpu pf st))))
  = num_cpus_installed (odp_global_ro st)
  /\ num_cpus_installed (odp_global_ro st) <> 0.
Proof.
  unfold systemcpu, bind, get, sysconf_cpu_count.
  destruct (num_cpus_installed (odp_global_ro st) =? 0) eqn:E0; [discriminate|].
  apply Z.eqb_neq in E0.
  destruct (systemcpu_cache_line_size pf =? 0); [discriminate|].
  destruct (negb (systemcpu_cache_line_size pf =? ODP_CACHE_LINE_SIZE pf));
    [discriminate|].
  intros _. split; [reflexivity | exact E0].
Qed.

(** The two ways [_odp_system_info_init] ends: with -1 and nothing but
    [system_info] and the log changed, or with 0 after [systemcpu] has
    succeeded and [system_hp] has run. *)
Lemma init_shape (st : state) :
  (fst (_odp_system_info_init dm pf st) = -1
   /\ same_but_system_info st (snd (_odp_system_info_init dm pf st)))
  \/ (exists s : state,
        fst (_odp_system_info_init dm pf st) = 0
        /\ same_but_system_info st s
        /\ fst (systemcpu pf s) = 0
        /\ snd (_odp_system_info_init dm pf st)
           = snd (system_hp dm pf (snd (systemcpu pf s)))).
Proof.
  unfold _odp_system_info_init, bind.
  destruct (set_system_info zero_system_info st) as [u1 s1] eqn:E1.
  assert (S1 : same_but_system_info st s1).
  { change s1 with (snd (u1, s1)). rewrite <- E1. apply same_set_system_info. }
  destruct (modify_system_info (with_page_size (ODP_PAGE_SIZE pf)) s1) as [u2 s2] eqn:E2.
  assert (S2 : same_but_system_info st s2).
  { eapply same_trans; [exact S1|].
    change s2 with (snd (u2, s2)). rewrite <- E2. apply same_modify. }
  pose proof (read_config_file_spec pf s2) as [S3 R3].
  destruct (read_config_file pf s2) as [rc s3]. cbn [fst snd] in S3, R3.
  assert (S3' : same_but_system_info st s3) by (eapply same_trans; eassumption).
  destruct (rc =? 0) eqn:Hrc; cbn [negb]; [|left; split; [reflexivity | exact S3']].
  destruct ((if CONFIG_NUM_CPU_IDS pf <? get_nprocs_conf pf
             then ODP_ERR ("Unable to handle all %d CPU IDs. Increase CONFIG_NUM_CPU_IDS value."
                           ++ nl)
             else ret tt) s3) as [u4 s4] eqn:E4.
  assert (S4 : same_but_system_info st s4).
  { eapply same_trans; [exact S3'|].
    change s4 with (snd (u4, s4)). rewrite <- E4.
    destruct (CONFIG_NUM_CPU_IDS pf <? get_nprocs_conf pf);
      [apply same_emit | apply same_refl]. }
  pose proof (same_cpufreq_loop pf (Z.to_nat (CONFIG_NUM_CPU_IDS pf)) 0 s4) as S5.
  destruct (cpufreq_loop pf (Z.to_nat (CONFIG_NUM_CPU_IDS pf)) 0 s4) as [u5 s5].
  cbn [snd] in S5.
  destruct (match proc_cpuinfo pf with
            | Some file => modify_system_info (_odp_cpuinfo_parser pf file)
            | None => modify_system_info (_odp_dummy_cpuinfo pf)
            end s5) as [u6 s6] eqn:E6.
  assert (S6 : same_but_system_info st s6).
  { eapply same_trans; [exact S4|]. eapply same_trans; [exact S5|].
    change s6 with (snd (u6, s6)). rewrite <- E6.
    destruct (proc_cpuinfo pf); apply same_modify. }
  pose proof (systemcpu_spec pf s6) as (S7 & R7 & _).
  destruct (systemcpu pf s6) as [rc' s7] eqn:E7. cbn [fst snd] in S7, R7.
  destruct (rc' =? 0) eqn:Hrc'; cbn [negb].
  - apply Z.eqb_eq in Hrc'. right. exists s6. rewrite E7. cbn [fst snd].
    pose proof (system_hp_spec dm pf s7) as [H0 _].
    destruct (system_hp dm pf s7) as [r s8]. cbn [fst snd] in *.
    split; [reflexivity|]. split; [exact S6|]. split; [exact Hrc' | reflexivity].
  - left. split; [reflexivity|]. cbn [snd].
    eapply same_trans; [exact S6|]. eapply same_trans; [exact S7|]. apply same_emit.
Qed.

Lemma default_huge_page_size_value (s s' : state) :
  fst (HugePage.default_huge_page_size dm pf s)
  = fst (HugePage.default_huge_page_size dm pf s').
Proof.
  unfold HugePage.default_huge_page_size.
  destruct (proc_meminfo pf) as [content|]; [|reflexivity].
  induction (fgets_all 1024 content) as [|l lines IH]; cbn [meminfo_loop];
    [reflexivity|].
  destruct (sscanf_1 dm l _); [reflexivity | exact IH].
Qed.

End InitShape.

(** [_odp_system_info_init] returns 0 or -1, and 0 exactly when both
    configuration keys are found, the number of CPUs installed is not 0
    and the cache line size probed is the constant and not 0. *)
Theorem init_return_value (dm : data_model) (pf : platform) (st : state) :
  (fst (_odp_system_info_init dm pf st) = 0
   \/ fst (_odp_system_info_init dm pf st) = -1)
  /\ (fst (_odp_system_info_init dm pf st) = 0 <->
      (exists a, _odp_libconfig_lookup_int pf "system.cpu_mhz" = Some a)
      /\ (exists b, _odp_libconfig_lookup_int pf "system.cpu_mhz_max" = Some b)
      /\ num_cpus_installed (odp_global_ro st) <> 0
      /\ systemcpu_cache_line_size pf <> 0
      /\ systemcpu_cache_line_size pf = ODP_CACHE_LINE_SIZE pf).
Proof.
  assert (S : fst (_odp_system_info_init dm pf st) = init_status pf st).
  { destruct (init_cases dm pf st) as [[H1 H2] | (s & H1 & H2 & _)]; congruence. }
  rewrite S. unfold init_status.
  destruct (_odp_libconfig_lookup_int pf "system.cpu_mhz") as [a|].
  2:{ split; [now right|]. split; [discriminate|]. intros ([x Hx] & _). discriminate. }
  destruct (_odp_libconfig_lookup_int pf "system.cpu_mhz_max") as [b|].
  2:{ split; [now right|]. split; [discriminate|]. intros (_ & [x Hx] & _). discriminate. }
  destruct (num_cpus_installed (odp_global_ro st) =? 0) eqn:E0; cbn [negb andb].
  { apply Z.eqb_eq in E0. split; [now right|]. split; [discriminate|].
    intros (_ & _ & H & _). contradiction. }
  destruct (systemcpu_cache_line_size pf =? 0) eqn:E1; cbn [negb andb].
  { apply Z.eqb_eq in E1. split; [now right|]. split; [discriminate|].
    intros (_ & _ & _ & H & _). contradiction. }
  destruct (systemcpu_cache_line_size pf =? ODP_CACHE_LINE_SIZE pf) eqn:E2.
  - apply Z.eqb_neq in E0, E1. apply Z.eqb_eq in E2.
    split; [now left|]. split; [|reflexivity]. intros _.
    repeat split; eauto.
  - apply Z.eqb_neq in E2. split; [now right|]. split; [discriminate|].
    intros (_ & _ & _ & _ & H). contradiction.
Qed.

(** A failed initialisation leaves the huge page information and the
    default size cached by [get_hugepage_dir] as they were. *)
Theorem init_failure_keeps_hugepage_info (dm : data_model) (pf : platform)
  (st : state) :
  fst (_odp_system_info_init dm pf st) = -1 ->
  hugepage_info (odp_global_ro (snd (_odp_system_info_init dm pf st)))
  = hugepage_info (odp_global_ro st)
  /\ default_size (snd (_odp_system_info_init dm pf st)) = default_size st
  /\ num_cpus_installed (odp_global_ro (snd (_odp_system_info_init dm pf st)))
     = num_cpus_installed (odp_global_ro st).
Proof.
  intros H.
  destruct (init_shape dm pf st) as [[_ (F1 & F2 & F3)] | (s & H0 & _)];
    [repeat split; assumption | congruence].
Qed.

(** After a successful initialisation [odp_cpu_count] returns the
    number of CPUs installed, which is not 0, and
    [odp_sys_huge_page_size] returns what [default_huge_page_size]
    reads from the memory information. *)
Theorem init_success_accessors (dm : data_model) (pf : platform) (st : state) :
  fst (_odp_system_info_init dm pf st) = 0 ->
  let st' := snd (_odp_system_info_init dm pf st) in
  odp_cpu_count st' = num_cpus_installed (odp_global_ro st)
  /\ odp_cpu_count st' <> 0
  /\ odp_sys_huge_page_size st' = fst (HugePage.default_huge_page_size dm pf st).
Proof.
  intros H st'. subst st'.
  destruct (init_shape dm pf st) as [[H1 _] | (s & _ & Sm & Hc & Hs)]; [congruence|].
  rewrite Hs. unfold odp_cpu_count, odp_sys_huge_page_size.
  destruct (system_hp_spec dm pf (snd (systemcpu pf s))) as (_ & Hsi & Hsz & _).
  rewrite Hsi, Hsz.
  destruct (systemcpu_cpu_count pf s Hc) as [Hn Hnz].
  destruct Sm as (N & _ & _). rewrite Hn, N in *.
  repeat split; [exact Hnz|].
  apply default_huge_page_size_value.
Qed.

Lemma read_config_file_result_witness :
  default_cpu_hz
    (system_info (odp_global_ro
       (snd (read_config_file (Sample.machine None None None) Sample.boot))))
  = 1400 * 1000000.
Proof.
  apply (read_config_file_result (Sample.machine None None None) Sample.boot).
  unfold INT_MAX. lia.
Defined.

Lemma init_return_value_witness :
  fst (_odp_system_info_init LP64 (Sample.machine None None None) Sample.boot) = 0.
Proof.
  apply (init_return_value LP64 (Sample.machine None None None) Sample.boot).
  split; [exists 1400; reflexivity|]. split; [exists 1400; reflexivity|].
  split; [discriminate|]. split; [discriminate | reflexivity].
Defined.

(** A machine without installed CPUs, on which initialisation fails. *)
Lemma init_failure_keeps_hugepage_info_witness :
  let st := snd (set_default_size 4096 Sample.boot) in
  let st0 := {| odp_global_ro :=
                  {| num_cpus_installed := 0;
                     system_info := system_info (odp_global_ro st);
                     hugepage_info := {| Global.default_huge_page_size := 4096;
                                         default_huge_page_dir := Some "/huge"%string |} |};
                default_size := 4096; log := []; allocated := [] |} in
  hugepage_info (odp_global_ro
    (snd (_odp_system_info_init LP64 (Sample.machine None None None) st0)))
  = {| Global.default_huge_page_size := 4096;
       default_huge_page_dir := Some "/huge"%string |}.
Proof.
  cbv zeta.
  apply (init_failure_keeps_hugepage_info LP64 (Sample.machine None None None)).
  vm_compute. reflexivity.
Defined.

Lemma init_success_accessors_witness :
  odp_cpu_count
    (snd (_odp_system_info_init LP64
            (Sample.machine (Some Sample.meminfo_2M) None None) Sample.boot)) = 4.
Proof.
  apply (init_success_accessors LP64
           (Sample.machine (Some Sample.meminfo_2M) None None) Sample.boot).
  vm_compute. reflexivity.
Defined.

(** *** Mount directory resolution, continued *)

Lemma mounts_loop_sound (dm : data_model) (ds sz : Z) (lines : list string)
  (st : state) (d : string) :
  fst (mounts_loop dm ds sz lines st) = Some d ->
  exists l, In l lines
            /\ is_hugetlbfs_line dm l = true
            /\ d = token (rte_strsplit l BUFSIZ _FIELDNAME_MAX " ") MOUNTPT.
Proof.
  induction lines as [|l lines IH]; cbn [mounts_loop]; [discriminate|].
  assert (Next : fst (mounts_loop dm ds sz lines st) = Some d ->
                 exists l0, In l0 (l :: lines)
                            /\ is_hugetlbfs_line dm l0 = true
                            /\ d = token (rte_strsplit l0 BUFSIZ _FIELDNAME_MAX " ") MOUNTPT).
  { intros H. destruct (IH H) as (l0 & Hin & Hl0). exists l0. split; [now right | exact Hl0]. }
  unfold mounts_line, is_hugetlbfs_line.
  destruct (Z.of_nat _ =? _FIELDNAME_MAX) eqn:E4; cbn [negb]; [|discriminate].
  destruct (strncmp _ hugetlbfs_str (htlbfs_str_len dm) =? 0) eqn:Efs; [|exact Next].
  assert (Here : forall s',
             fst (bind (strdup (token (rte_strsplit l BUFSIZ _FIELDNAME_MAX " ") MOUNTPT))
                    (fun retval => ret (Some retval)) s') = Some d ->
                 exists l0, In l0 (l :: lines)
                            /\ is_hugetlbfs_line dm l0 = true
                            /\ d = token (rte_strsplit l0 BUFSIZ _FIELDNAME_MAX " ") MOUNTPT).
  { intros s' H. cbn in H. injection H as <-. exists l. split; [now left|].
    unfold is_hugetlbfs_line. rewrite E4, Efs. split; reflexivity. }
  destruct (strstr _ pagesize_opt) as [p|].
  - destruct (rte_str_to_size _ =? sz); [apply Here | exact Next].
  - destruct (sz =? ds); [apply Here | exact Next].
Qed.

(** A directory returned by [get_hugepage_dir] is the mount point
    field of a line of the mount table that splits into four fields
    and passes the comparison of its type with [hugetlbfs_str]. *)
Theorem get_hugepage_dir_sound (dm : data_model) (pf : platform) (req : Z)
  (st : state) (d : string) :
  fst (get_hugepage_dir dm pf req st) = Some d ->
  exists content l,
    proc_mounts pf = Some content
    /\ In l (fgets_all BUFSIZ content)
    /\ is_hugetlbfs_line dm l = true
    /\ d = token (rte_strsplit l BUFSIZ _FIELDNAME_MAX " ") MOUNTPT.
Proof.
  destruct (proc_mounts pf) as [content|] eqn:E.
  - rewrite (get_hugepage_dir_eq dm pf content req st E). cbv zeta. intros H.
    destruct (mounts_loop_sound dm _ _ _ _ d H) as (l & H1 & H2 & H3).
    exists content, l. repeat split; assumption.
  - unfold get_hugepage_dir. rewrite E. discriminate.
Qed.

Lemma get_hugepage_dir_sound_witness :
  exists content l,
    Some Sample.mounts_default = Some content
    /\ In l (fgets_all BUFSIZ content)
    /\ is_hugetlbfs_line LP64 l = true
    /\ "/mnt/huge"%string = token (rte_strsplit l BUFSIZ _FIELDNAME_MAX " ") MOUNTPT.
Proof.
  apply (get_hugepage_dir_sound LP64
           (Sample.machine (Some Sample.meminfo_2M) (Some Sample.mounts_default) None)
           0 Sample.boot "/mnt/huge"%string).
  vm_compute. reflexivity.
Defined.

(** A request for size 0 is a request for the default size: the two
    calls return the same directory and leave the same state. *)
Theorem get_hugepage_dir_zero_is_default (dm : data_model) (pf : platform)
  (st : state) :
  get_hugepage_dir dm pf 0 st
  = get_hugepage_dir dm pf (default_size (snd (refresh_default_size dm pf st))) st.
Proof.
  destruct (proc_mounts pf) as [content|] eqn:E.
  - rewrite !(get_hugepage_dir_eq dm pf content _ st E). cbv zeta. cbn [Z.eqb].
    destruct (default_size (snd (refresh_default_size dm pf st)) =? 0) eqn:E0;
      reflexivity.
  - unfold get_hugepage_dir. rewrite E. reflexivity.
Qed.

(** The default size is read once: when [get_hugepage_dir] holds a
    non-zero [default_size], the call does not look at the memory
    information, whatever it says by now, and keeps the value. *)
Theorem get_hugepage_dir_cached_default (dm : data_model) (pf : platform)
  (meminfo : option string) (req : Z) (st : state) :
  default_size st <> 0 ->
  get_hugepage_dir dm (with_meminfo pf meminfo) req st = get_hugepage_dir dm pf req st
  /\ default_size (snd (get_hugepage_dir dm pf req st)) = default_size st
  /\ log (snd (refresh_default_size dm pf st)) = log st.
Proof.
  intros H. apply Z.eqb_neq in H.
  assert (R : forall p, refresh_default_size dm p st = (tt, st)).
  { intros p. unfold refresh_default_size, bind, get. rewrite H. reflexivity. }
  split; [|split].
  - unfold get_hugepage_dir. cbn [with_meminfo proc_mounts].
    destruct (proc_mounts pf); [|reflexivity].
    unfold bind. rewrite !R. reflexivity.
  - destruct (proc_mounts pf) as [content|] eqn:E.
    + rewrite (get_hugepage_dir_eq dm pf content req st E). cbv zeta.
      rewrite R. cbn [snd]. apply mounts_loop_frame.
    + unfold get_hugepage_dir. rewrite E. reflexivity.
  - rewrite R. reflexivity.
Qed.

Lemma get_hugepage_dir_cached_default_witness :
  let pf := Sample.machine (Some Sample.meminfo_2M) (Some Sample.mounts_default) None in
  let st := snd (set_default_size 1073741824 Sample.boot) in
  get_hugepage_dir LP64 (with_meminfo pf None) 0 st = get_hugepage_dir LP64 pf 0 st.
Proof.
  cbv zeta.
  apply (get_hugepage_dir_cached_default LP64
           (Sample.machine (Some Sample.meminfo_2M) (Some Sample.mounts_default) None)
           None 0 (snd (set_default_size 1073741824 Sample.boot))).
  cbn. discriminate.
Defined.

Lemma code_inj (a b : ascii) : code a = code b -> a = b.
Proof.
  unfold code. intros H. apply N2Z.inj in H.
  rewrite <- (ascii_N_embedding a), <- (ascii_N_embedding b). now rewrite H.
Qed.

Lemma strncmp_zero_prefix (p : string) :
  forall (s1 rest : string),
    no_nul p ->
    (strncmp s1 (p ++ rest) (String.length p) = 0 <-> exists r, s1 = (p ++ r)%string).
Proof.
  induction p as [|b p IH]; intros s1 rest Hp.
  - cbn. split; [intros _; now exists s1 | intros _; now destruct s1].
  - destruct Hp as [Hb Hp].
    destruct s1 as [|a s1]; cbn [String.length String.append strncmp].
    + split; [intros H; lia | intros [r Hr]; discriminate].
    + destruct (code a =? code b) eqn:E.
      * apply Z.eqb_eq, code_inj in E. subst a.
        rewrite (IH s1 rest Hp). split.
        -- intros [r ->]. now exists r.
        -- intros [r Hr]. injection Hr as ->. now exists r.
      * apply Z.eqb_neq in E. split; [intros H; lia|].
        intros [r Hr]. injection Hr as -> _. contradiction.
Qed.

(** The type of a mount is compared on as many characters as a pointer
    has bytes, less one: a field passes exactly when it starts with
    [hugetlb] (with 8-byte pointers) or with [hug] (with 4-byte
    pointers), whatever follows. *)
Theorem fstype_test_is_prefix (dm : data_model) (fs : string) :
  strncmp fs hugetlbfs_str (htlbfs_str_len dm) = 0
  <-> exists r, fs = ((match dm with LP64 => "hugetlb" | ILP32 => "hug" end) ++ r)%string.
Proof.
  destruct dm.
  - apply (strncmp_zero_prefix "hug" fs "etlbfs"). cbn. repeat split; discriminate.
  - apply (strncmp_zero_prefix "hugetlb" fs "fs"). cbn. repeat split; discriminate.
Qed.

Lemma fstype_test_is_prefix_witness :
  strncmp "hugetlbfs" hugetlbfs_str (htlbfs_str_len LP64) = 0
  /\ exists r, "hugetlb_other"%string = ("hugetlb" ++ r)%string.
Proof.
  split.
  - apply (fstype_test_is_prefix LP64 "hugetlbfs"). exists "fs"%string. reflexivity.
  - apply (fstype_test_is_prefix LP64 "hugetlb_other"). reflexivity.
Defined.

Lemma prefix_split (n : string) :
  forall p : string, prefix n p = true -> exists v, p = (n ++ v)%string.
Proof.
  induction n as [|a n IH]; intros p H.
  - exists p. reflexivity.
  - destruct p as [|b p]; [discriminate|]. cbn [prefix] in H.
    destruct (ascii_dec a b) as [<-|]; [|discriminate].
    destruct (IH p H) as [v ->]. now exists v.
Qed.

Lemma strstr_result (needle : string) (haystack p : string) :
  strstr haystack needle = Some p -> exists v, p = (needle ++ v)%string.
Proof.
  induction haystack as [|c h IH]; cbn [strstr].
  - destruct (prefix needle EmptyString) eqn:E; [|discriminate].
    intros H; injection H as <-. now apply prefix_split.
  - destruct (prefix needle (String c h)) eqn:E.
    + intros H; injection H as <-. now apply prefix_split.
    + exact IH.
Qed.

(** A hugetlbfs line with a [pagesize=] option that the scan reaches:
    the option is read as 0 whatever size it gives, so the line is
    passed over for every non-zero size looked for, and chosen only
    when the size looked for is 0 (a request for the default while no
    default size is known). *)
Theorem get_hugepage_dir_explicit_pagesize (dm : data_model) (pf : platform)
  (content : string) (pre : list string) (buf : string) (post : list string)
  (dev mnt fs opts p : string) (req : Z) (st : state) :
  let st1 := snd (refresh_default_size dm pf st) in
  let ds := default_size st1 in
  let sz := if req =? 0 then ds else req in
  proc_mounts pf = Some content ->
  fgets_all BUFSIZ content = pre ++ buf :: post ->
  Forall (fun l => mounts_line dm ds sz l = L_next) pre ->
  rte_strsplit buf BUFSIZ _FIELDNAME_MAX " " = [dev; mnt; fs; opts] ->
  strncmp fs hugetlbfs_str (htlbfs_str_len dm) = 0 ->
  strstr opts pagesize_opt = Some p ->
  (sz <> 0 -> get_hugepage_dir dm pf req st = mounts_loop dm ds sz post st1)
  /\ (sz = 0 -> get_hugepage_dir dm pf req st = (Some mnt, snd (strdup mnt st1))).
Proof.
  intros st1 ds sz Hfile Hlines Hpre Hsplit Hfs Hopt.
  assert (G : get_hugepage_dir dm pf req st
              = mounts_loop dm ds sz (buf :: post) st1).
  { rewrite (get_hugepage_dir_eq dm pf content req st Hfile). cbv zeta.
    fold st1. fold ds. fold sz. rewrite Hlines.
    apply (mounts_loop_skip dm ds sz pre _ st1 Hpre). }
  assert (L : mounts_line dm ds sz buf = if 0 =? sz then L_found mnt else L_next).
  { unfold mounts_line. rewrite Hsplit.
    cbn [List.length Z.of_nat Pos.of_succ_nat Pos.succ _FIELDNAME_MAX Z.eqb Pos.eqb negb].
    unfold token. cbn [nth FSTYPE OPTIONS MOUNTPT]. rewrite Hfs, Hopt.
    destruct (strstr_result pagesize_opt opts p Hopt) as [v ->].
    rewrite explicit_pagesize_reads_zero. reflexivity. }
  rewrite G. cbn [mounts_loop]. rewrite L. split; intros H.
  - destruct (0 =? sz) eqn:E; [apply Z.eqb_eq in E; congruence | reflexivity].
  - rewrite H. reflexivity.
Qed.

Lemma get_hugepage_dir_explicit_pagesize_witness :
  get_hugepage_dir LP64
    (Sample.machine (Some Sample.meminfo_2M) (Some Sample.mounts_pagesize_2M) None)
    1073741824 Sample.boot
  = (None,
     snd (refresh_default_size LP64
            (Sample.machine (Some Sample.meminfo_2M) (Some Sample.mounts_pagesize_2M) None)
            Sample.boot)).
Proof.
  apply (get_hugepage_dir_explicit_pagesize LP64
           (Sample.machine (Some Sample.meminfo_2M) (Some Sample.mounts_pagesize_2M) None)
           Sample.mounts_pagesize_2M [] Sample.mounts_pagesize_2M []
           "none"%string "/mnt/huge"%string "hugetlbfs"%string
           ("rw,pagesize=2M 0 0" ++ nl)%string ("pagesize=2M 0 0" ++ nl)%string
           1073741824 Sample.boot).
  - reflexivity.
  - vm_compute. reflexivity.
  - constructor.
  - vm_compute. reflexivity.
  - reflexivity.
  - reflexivity.
  - vm_compute. discriminate.
Defined.

(** What initialisation stores: the size is what
    [default_huge_page_size] reads, and the directory is what the scan
    of the mount table finds for the default size in force, which is
    the cached value, or the size read when nothing is cached. *)
Lemma system_hp_dir (dm : data_model) (pf : platform) (st : state) :
  exists s : state,
    default_size s = default_size st
    /\ default_huge_page_dir (hugepage_info (odp_global_ro (snd (system_hp dm pf st))))
       = fst (get_hugepage_dir dm pf 0 s).
Proof.
  unfold system_hp, bind, ret, get.
  pose proof (default_huge_page_size_frame dm pf st) as [F1 F1'].
  destruct (HugePage.default_huge_page_size dm pf st) as [v s1].
  cbn [set_hugepage_info snd fst] in *.
  match goal with
  | |- context [get_hugepage_dir dm pf 0 ?s] =>
      set (s2 := s);
      destruct (get_hugepage_dir dm pf 0 s2) as [d s3] eqn:E
  end.
  exists s2. split; [exact F1'|]. rewrite E. reflexivity.
Qed.

Lemma refresh_default_size_value (dm : data_model) (pf : platform) (st : state) :
  default_size (snd (refresh_default_size dm pf st))
  = if default_size st =? 0
    then fst (HugePage.default_huge_page_size dm pf st)
    else default_size st.
Proof.
  unfold refresh_default_size, bind, get.
  destruct (default_size st =? 0); [|reflexivity].
  destruct (HugePage.default_huge_page_size dm pf st) as [v s1]. reflexivity.
Qed.

Lemma init_dir_scan (dm : data_model) (pf : platform) (content : string) (st : state) :
  fst (_odp_system_info_init dm pf st) = 0 ->
  proc_mounts pf = Some content ->
  let st' := snd (_odp_system_info_init dm pf st) in
  let ds := if default_size st =? 0
            then fst (HugePage.default_huge_page_size dm pf st)
            else default_size st in
  Global.default_huge_page_size (hugepage_info (odp_global_ro st'))
  = fst (HugePage.default_huge_page_size dm pf st)
  /\ exists s : state,
       default_huge_page_dir (hugepage_info (odp_global_ro st'))
       = fst (mounts_loop dm ds ds (fgets_all BUFSIZ content) s).
Proof.
  intros Hrc Hfile st' ds. subst st'.
  destruct (init_cases dm pf st) as [[H1 _] | (s & _ & _ & Hsame & _ & H)];
    [rewrite Hrc in H1; discriminate|].
  rewrite H. destruct Hsame as (_ & _ & Hds).
  split.
  - destruct (system_hp_spec dm pf s) as (_ & _ & Hsz & _).
    rewrite Hsz. apply default_huge_page_size_value.
  - destruct (system_hp_dir dm pf s) as (s2 & Hs2 & Hd).
    rewrite Hd, (get_hugepage_dir_eq dm pf content 0 s2 Hfile). cbv zeta.
    cbn [Z.eqb]. rewrite refresh_default_size_value, Hs2, Hds.
    rewrite (default_huge_page_size_value dm pf s2 st).
    eexists. reflexivity.
Qed.

(** After a successful initialisation on a machine whose mount table
    has, after lines that the scan for the default size passes over, a
    hugetlbfs line without a [pagesize=] option,
    [default_huge_page_dir] is the mount point of that line.  The
    default size is the one in force for the scan: the value cached by
    [get_hugepage_dir], or what [default_huge_page_size] reads when
    nothing is cached. *)
Theorem init_finds_default_mount (dm : data_model) (pf : platform)
  (content : string) (pre : list string) (buf : string) (post : list string)
  (dev mnt fs opts : string) (st : state) :
  fst (_odp_system_info_init dm pf st) = 0 ->
  proc_mounts pf = Some content ->
  fgets_all BUFSIZ content = pre ++ buf :: post ->
  (let ds := if default_size st =? 0
             then fst (HugePage.default_huge_page_size dm pf st)
             else default_size st in
   Forall (fun l => mounts_line dm ds ds l = L_next) pre) ->
  rte_strsplit buf BUFSIZ _FIELDNAME_MAX " " = [dev; mnt; fs; opts] ->
  strncmp fs hugetlbfs_str (htlbfs_str_len dm) = 0 ->
  strstr opts pagesize_opt = None ->
  default_huge_page_dir
    (hugepage_info (odp_global_ro (snd (_odp_system_info_init dm pf st))))
  = Some mnt.
Proof.
  intros Hrc Hfile Hlines Hpre Hsplit Hfs Hopt.
  destruct (init_dir_scan dm pf content st Hrc Hfile) as (_ & s & Hd).
  cbv zeta in Hpre. rewrite Hd, Hlines, (mounts_loop_skip dm _ _ pre _ s Hpre).
  cbn [mounts_loop].
  rewrite (mounts_line_default dm _ _ buf dev mnt fs opts Hsplit Hfs Hopt).
  rewrite Z.eqb_refl. reflexivity.
Qed.

Lemma init_finds_default_mount_witness :
  default_huge_page_dir
    (hugepage_info (odp_global_ro
       (snd (_odp_system_info_init LP64
               (Sample.machine (Some Sample.meminfo_2M)
                  (Some Sample.mounts_1G_first) None)
               Sample.boot))))
  = Some "/mnt/2m"%string.
Proof.
  apply (init_finds_default_mount LP64
           (Sample.machine (Some Sample.meminfo_2M)
              (Some Sample.mounts_1G_first) None)
           Sample.mounts_1G_first
           [("none /mnt/1g hugetlbfs rw,pagesize=1G 0 0" ++ nl)%string]
           ("none /mnt/2m hugetlbfs rw,relatime 0 0" ++ nl)%string
           []
           "none"%string "/mnt/2m"%string "hugetlbfs"%string
           ("rw,relatime 0 0" ++ nl)%string Sample.boot).
  - vm_compute. reflexivity.
  - reflexivity.
  - vm_compute. reflexivity.
  - cbv zeta. constructor; [vm_compute; reflexivity | constructor].
  - vm_compute. reflexivity.
  - reflexivity.
  - reflexivity.
Defined.

(** *** Default huge page size, continued *)



(** *** Enumeration of the huge page sizes, continued *)

Lemma store_length (buf : list Z) :
  forall (i : nat) (v : Z), List.length (store buf i v) = List.length buf.
Proof.
  induction buf as [|x buf IH]; intros [|i] v; cbn [store List.length];
    try reflexivity.
  now rewrite IH.
Qed.

Lemma store_firstn (buf : list Z) :
  forall (i : nat) (v : Z),
    (i < List.length buf)%nat ->
    firstn (S i) (store buf i v) = firstn i buf ++ [v].
Proof.
  induction buf as [|x buf IH]; intros i v H; cbn [List.length] in H; [lia|].
  destruct i as [|i]; [reflexivity|].
  cbn [store]. rewrite (firstn_cons (S i)), IH by lia. reflexivity.
Qed.

Lemma store_skipn (buf : list Z) :
  forall (i j : nat) (v : Z),
    (i < j)%nat -> skipn j (store buf i v) = skipn j buf.
Proof.
  induction buf as [|x buf IH]; intros i j v H;
    [destruct i; reflexivity|].
  destruct j as [|j]; [lia|].
  destruct i as [|i]; cbn [store skipn]; [reflexivity|].
  apply IH. lia.
Qed.

Lemma hugepages_loop_fill (dm : data_model) (entries : list string) :
  forall (buf : list Z) (num saved cnt : Z),
    0 <= saved <= num ->
    num <= Z.of_nat (List.length buf) ->
    let F := firstn (Z.to_nat (num - saved)) (matching_sizes dm entries) in
    fst (hugepages_loop dm entries (Some buf) num saved cnt)
    = (Some (firstn (Z.to_nat saved) buf ++ F
             ++ skipn (Z.to_nat saved + List.length F) buf),
       saved + Z.of_nat (List.length F)).
Proof.
  induction entries as [|e entries IH]; intros buf num saved cnt Hs Hn;
    cbn [hugepages_loop matching_sizes].
  - rewrite firstn_nil. cbn [List.length app fst].
    rewrite Nat.add_0_r, firstn_skipn, Z.add_0_r. reflexivity.
  - destruct (sscanf_1 dm e _) as [sz|]; [|now apply IH].
    set (v := to_u64 (to_ulong dm (sz * 1024))).
    destruct (saved <? num) eqn:E.
    + apply Z.ltb_lt in E.
      assert (N1 : Z.to_nat (num - saved) = S (Z.to_nat (num - (saved + 1)))) by lia.
      assert (N2 : Z.to_nat (saved + 1) = S (Z.to_nat saved)) by lia.
      assert (Lt : (Z.to_nat saved < List.length buf)%nat) by lia.
      rewrite IH; [|lia|rewrite store_length; lia].
      rewrite N1, N2, firstn_cons. cbn [List.length].
      rewrite (store_firstn buf _ v Lt).
      rewrite (store_skipn buf (Z.to_nat saved)) by lia.
      rewrite <- app_assoc. cbn [app].
      rewrite Nat.add_succ_r. cbn [Nat.add]. f_equal. lia.
    + apply Z.ltb_ge in E.
      assert (N0 : Z.to_nat (num - saved) = 0%nat) by lia.
      rewrite N0. cbn [firstn List.length app].
      rewrite (hugepages_loop_full dm entries (Some buf) num saved _ E).
      rewrite Nat.add_0_r, firstn_skipn, Z.add_0_r. reflexivity.
Qed.

Lemma huge_page_size_all_out (dm : data_model) (pf : platform)
  (entries : list string) (buf : list Z) (num : Z) (st : state) :
  sys_hugepages pf = Some entries ->
  0 <= num <= Z.of_nat (List.length buf) ->
  let S := firstn (Z.to_nat num) (matching_sizes dm entries) in
  snd (fst (odp_sys_huge_page_size_all dm pf (Some buf) num st))
  = Some ((if (1 <? Z.of_nat (List.length S)) then qsort pagesz_compare S else S)
          ++ skipn (List.length S) buf).
Proof.
  intros Hdir Hnum S.
  unfold odp_sys_huge_page_size_all. rewrite Hdir.
  pose proof (hugepages_loop_fill dm entries buf num 0 0 ltac:(lia) ltac:(lia)) as F.
  cbv zeta in F. rewrite Z.sub_0_r in F. fold S in F.
  cbn [Z.to_nat firstn app Nat.add] in F. rewrite Z.add_0_l in F.
  destruct (hugepages_loop dm entries (Some buf) num 0 0) as [[size' saved] cnt].
  cbn [fst] in F. injection F as -> ->.
  rewrite Nat2Z.id, firstn_app, Nat.sub_diag, firstn_all.
  cbn [firstn]. rewrite app_nil_r.
  rewrite skipn_app, Nat.sub_diag, skipn_all. cbn [skipn app].
  destruct (1 <? Z.of_nat (List.length S)); reflexivity.
Qed.

(** [odp_sys_huge_page_size_all] with an array of at least [num]
    cells: the front of the array holds, in some order, the sizes of
    the first [num] matching entries of the listing (all of them if
    there are fewer); the array keeps its length and no cell from
    index [num] on is changed. *)
Theorem huge_page_size_all_array (dm : data_model) (pf : platform)
  (entries : list string) (buf : list Z) (num : Z) (st : state) :
  sys_hugepages pf = Some entries ->
  0 <= num <= Z.of_nat (List.length buf) ->
  let S := firstn (Z.to_nat num) (matching_sizes dm entries) in
  exists out,
    snd (fst (odp_sys_huge_page_size_all dm pf (Some buf) num st)) = Some out
    /\ Permutation (firstn (List.length S) out) S
    /\ List.length out = List.length buf
    /\ skipn (Z.to_nat num) out = skipn (Z.to_nat num) buf.
Proof.
  intros Hdir Hnum S.
  assert (LS : (List.length S <= Z.to_nat num)%nat) by apply firstn_le_length.
  assert (LB : (List.length S <= List.length buf)%nat) by lia.
  set (out := (if (1 <? Z.of_nat (List.length S)) then qsort pagesz_compare S else S)
              ++ skipn (List.length S) buf).
  assert (LQ : List.length (if (1 <? Z.of_nat (List.length S))
                            then qsort pagesz_compare S else S) = List.length S).
  { destruct (1 <? Z.of_nat (List.length S)); [|reflexivity].
    symmetry. apply Permutation_length, qsort_perm. }
  exists out. split; [|split; [|split]].
  - apply (huge_page_size_all_out dm pf entries buf num st Hdir Hnum).
  - subst out. rewrite firstn_app, LQ, Nat.sub_diag. cbn [firstn].
    rewrite app_nil_r, firstn_all2 by lia.
    destruct (1 <? Z.of_nat (List.length S)); [|reflexivity].
    symmetry. apply qsort_perm.
  - subst out. rewrite length_app, LQ, length_skipn. lia.
  - subst out. rewrite skipn_app, LQ.
    rewrite (skipn_all2 (n := Z.to_nat num)) by lia. cbn [app].
    rewrite skipn_skipn. f_equal. lia.
Qed.

Lemma huge_page_size_all_array_witness :
  exists out,
    snd (fst (odp_sys_huge_page_size_all LP64
                (Sample.machine None None (Some Sample.hugepages_2M_16G))
                (Some [7; 8; 9]) 1 Sample.boot)) = Some out
    /\ skipn 1 out = [8; 9].
Proof.
  destruct (huge_page_size_all_array LP64
              (Sample.machine None None (Some Sample.hugepages_2M_16G))
              Sample.hugepages_2M_16G [7; 8; 9] 1 Sample.boot eq_refl)
    as (out & H1 & _ & _ & H5).
  - cbn. lia.
  - exists out. split; [exact H1 | exact H5].
Defined.

(** When the sizes to store are less than 2^31 bytes apart (as 2 MB
    and 1 GB are), the front of the array is in ascending order. *)
Theorem huge_page_size_all_sorted (dm : data_model) (pf : platform)
  (entries : list string) (buf : list Z) (num : Z) (st : state) :
  sys_hugepages pf = Some entries ->
  0 <= num <= Z.of_nat (List.length buf) ->
  let S := firstn (Z.to_nat num) (matching_sizes dm entries) in
  (forall x y, In x S -> In y S -> - 2 ^ 31 <= x - y < 2 ^ 31) ->
  exists out,
    snd (fst (odp_sys_huge_page_size_all dm pf (Some buf) num st)) = Some out
    /\ Sorted Z.le (firstn (List.length S) out)
    /\ Permutation (firstn (List.length S) out) S.
Proof.
  intros Hdir Hnum S Hclose.
  assert (LQ : List.length (qsort pagesz_compare S) = List.length S).
  { symmetry. apply Permutation_length, qsort_perm. }
  pose proof (huge_page_size_all_out dm pf entries buf num st Hdir Hnum) as H1.
  cbv zeta in H1. fold S in H1.
  eexists. split; [exact H1|].
  destruct (1 <? Z.of_nat (List.length S)) eqn:E.
  - rewrite firstn_app, LQ, Nat.sub_diag. cbn [firstn].
    rewrite app_nil_r, <- LQ, firstn_all.
    split; [now apply qsort_pagesz_sorted | symmetry; apply qsort_perm].
  - apply Z.ltb_ge in E. rewrite firstn_app, Nat.sub_diag. cbn [firstn].
    rewrite app_nil_r, firstn_all. split; [|reflexivity].
    destruct S as [|a [|b S']]; cbn [List.length] in E;
      [constructor | repeat constructor | lia].
Qed.

Lemma huge_page_size_all_sorted_witness :
  exists out,
    snd (fst (odp_sys_huge_page_size_all LP64
                (Sample.machine None None
                   (Some ["hugepages-1048576kB"; "."; "hugepages-2048kB"]%string))
                (Some [0; 0]) 2 Sample.boot)) = Some out
    /\ Sorted Z.le (firstn 2 out)
    /\ Permutation (firstn 2 out) [1073741824; 2097152].
Proof.
  apply (huge_page_size_all_sorted LP64
           (Sample.machine None None
              (Some ["hugepages-1048576kB"; "."; "hugepages-2048kB"]%string))
           ["hugepages-1048576kB"; "."; "hugepages-2048kB"]%string
           [0; 0] 2 Sample.boot eq_refl).
  - cbn. lia.
  - intros x y [<-|[<-|[]]] [<-|[<-|[]]]; cbn; lia.
Defined.

(** *** Frequencies *)

Lemma is_digit_cases (d : Z) :
  is_digit d ->
  d = 0 \/ d = 1 \/ d = 2 \/ d = 3 \/ d = 4 \/ d = 5 \/ d = 6 \/ d = 7 \/ d = 8 \/ d = 9.
Proof. unfold is_digit. lia. Qed.

Lemma strtoull_nonzero_digit (d : Z) (s : string) :
  1 <= d <= 9 ->
  strtoull (String (digit_char d) s)
  = let '(v, n, rest) :=
      scan_digits 10 (S (String.length s)) (String (digit_char d) s) 0 0%nat in
    match n with
    | O => {| ull_value := 0; ull_endptr := String (digit_char d) s;
              ull_erange := false |}
    | S _ =>
        if ULLONG_MAX <? v
        then {| ull_value := ULLONG_MAX; ull_endptr := rest; ull_erange := true |}
        else {| ull_value := to_u64 v; ull_endptr := rest; ull_erange := false |}
    end.
Proof.
  intros H.
  assert (C : d = 1 \/ d = 2 \/ d = 3 \/ d = 4 \/ d = 5 \/ d = 6 \/ d = 7
              \/ d = 8 \/ d = 9) by lia.
  repeat destruct C as [-> | C]; try subst d; reflexivity.
Qed.

Lemma decimal_string_length (ds : list Z) (rest : string) :
  String.length (decimal_string ds ++ rest)
  = (List.length ds + String.length rest)%nat.
Proof.
  induction ds as [|d ds IH]; cbn [decimal_string String.append String.length List.length];
    [reflexivity|]. now rewrite IH.
Qed.

Lemma decimal_string_no_newline (ds : list Z) :
  Forall is_digit ds -> no_newline (decimal_string ds).
Proof.
  induction 1 as [|d ds Hd _ IH]; cbn [decimal_string no_newline]; [exact I|].
  split; [|exact IH].
  apply is_digit_cases in Hd.
  repeat destruct Hd as [-> | Hd]; try subst d; discriminate.
Qed.

Lemma strtoull_decimal (d : Z) (ds : list Z) (rest : string) :
  1 <= d <= 9 ->
  Forall is_digit ds ->
  no_digit_ahead rest ->
  decimal_value (d :: ds) <= ULLONG_MAX ->
  strtoull (decimal_string (d :: ds) ++ rest)
  = {| ull_value := decimal_value (d :: ds); ull_endptr := rest;
       ull_erange := false |}.
Proof.
  intros Hd Hds Hrest Hmax.
  assert (Hall : Forall is_digit (d :: ds)).
  { constructor; [unfold is_digit; lia | exact Hds]. }
  cbn [decimal_string String.append].
  rewrite (strtoull_nonzero_digit d _ Hd).
  change (String (digit_char d) (decimal_string ds ++ rest))
    with (decimal_string (d :: ds) ++ rest)%string.
  rewrite (scan_digits_decimal (d :: ds) _ rest 0 0%nat Hall); [| |exact Hrest].
  - cbn [Nat.add List.length]. fold (decimal_value (d :: ds)).
    apply Z.ltb_ge in Hmax. rewrite Hmax. f_equal.
    pose proof (decimal_value_bound (d :: ds) Hall 0 (Z.le_refl 0)) as B.
    fold (decimal_value (d :: ds)) in B.
    apply Z.ltb_ge in Hmax. unfold to_u64, ULLONG_MAX in *.
    apply Z.mod_small. change (2 ^ 64) with 18446744073709551616. lia.
  - rewrite decimal_string_length. cbn [List.length]. lia.
Qed.

Lemma append_char (cur : string) (c : ascii) (x : string) :
  ((cur ++ String c EmptyString) ++ x)%string = (cur ++ String c x)%string.
Proof.
  induction cur as [|a cur IH]; cbn [String.append]; [reflexivity|].
  now rewrite IH.
Qed.

Lemma fgets_first_line (size : Z) (s : string) :
  forall (room : Z) (cur tail : string),
    no_newline s ->
    Z.of_nat (String.length s) < room ->
    fgets_from size room cur (s ++ String "010" tail)
    = (cur ++ s ++ nl)%string :: fgets_from size (size - 1) EmptyString tail.
Proof.
  induction s as [|c s IH]; intros room cur tail Hs Hroom.
  - cbn [String.append fgets_from]. reflexivity.
  - destruct Hs as [Hc Hs]. cbn [String.length] in Hroom.
    cbn [String.append fgets_from].
    apply Z.eqb_neq in Hc. rewrite Hc.
    assert (R : (room <=? 1) = false) by (apply Z.leb_gt; lia).
    rewrite R. cbn [orb]. rewrite IH; [|exact Hs|lia].
    rewrite append_char. reflexivity.
Qed.

Lemma read_cpufreq_decimal (pf : platform) (filename : string) (id : Z)
  (d : Z) (ds : list Z) (tail : string) :
  cpufreq_file pf filename id
  = Some (decimal_string (d :: ds) ++ String "010" tail)%string ->
  1 <= d <= 9 -> Forall is_digit ds -> (List.length ds < 16)%nat ->
  read_cpufreq pf filename id = decimal_value (d :: ds) * 1000
  /\ 0 < read_cpufreq pf filename id < 2 ^ 64.
Proof.
  intros Hfile Hd Hds Hlen. unfold read_cpufreq. rewrite Hfile.
  assert (Hall : Forall is_digit (d :: ds)).
  { constructor; [unfold is_digit; lia | exact Hds]. }
  pose proof (decimal_value_bound (d :: ds) Hall 0 (Z.le_refl 0)) as B.
  fold (decimal_value (d :: ds)) in B.
  assert (P : 10 ^ Z.of_nat (List.length (d :: ds)) <= 10 ^ 16).
  { apply Z.pow_le_mono_r; cbn [List.length]; lia. }
  change (10 ^ 16) with 10000000000000000 in P.
  assert (Pos : 1 <= decimal_value (d :: ds)).
  { unfold decimal_value. cbn [fold_left].
    assert (G : forall acc, 1 <= acc ->
                  1 <= fold_left (fun a x => a * 10 + x) ds acc).
    { clear - Hds. induction Hds as [|x ds Hx _ IH]; intros acc Hacc;
        cbn [fold_left]; [lia|].
      apply IH. unfold is_digit in Hx. lia. }
    apply G. lia. }
  unfold fgets_all.
  rewrite (fgets_first_line 256 (decimal_string (d :: ds)) (256 - 1) EmptyString tail).
  - replace (EmptyString ++ decimal_string (d :: ds) ++ nl)%string
      with (decimal_string (d :: ds) ++ nl)%string by reflexivity.
    rewrite (strtoull_decimal d ds nl Hd Hds); [|reflexivity|unfold ULLONG_MAX; lia].
    cbn [ull_value]. unfold to_u64.
    rewrite Z.mod_small; change (2 ^ 64) with 18446744073709551616; lia.
  - now apply decimal_string_no_newline.
  - assert (L : forall l, String.length (decimal_string l) = List.length l).
    { induction l as [|x l IH]; cbn [decimal_string String.length List.length];
        [reflexivity | now rewrite IH]. }
    rewrite L. cbn [List.length]. lia.
Qed.

(** [read_cpufreq]: a missing file gives 0; a file that starts with a
    line holding a decimal number of kHz (up to sixteen digits, the
    first not 0) gives that number times 1000, exactly. *)
Theorem read_cpufreq_value (pf : platform) (filename : string) (id : Z) :
  (cpufreq_file pf filename id = None -> read_cpufreq pf filename id = 0)
  /\ (forall (d : Z) (ds : list Z) (tail : string),
        cpufreq_file pf filename id
        = Some (decimal_string (d :: ds) ++ String "010" tail)%string ->
        1 <= d <= 9 -> Forall is_digit ds -> (List.length ds < 16)%nat ->
        read_cpufreq pf filename id = decimal_value (d :: ds) * 1000
        /\ 0 < read_cpufreq pf filename id < 2 ^ 64).
Proof.
  split.
  - intros H. unfold read_cpufreq. rewrite H. reflexivity.
  - intros d ds tail Hfile Hd Hds Hlen.
    now apply (read_cpufreq_decimal pf filename id d ds tail).
Qed.

Lemma read_cpufreq_value_witness :
  read_cpufreq (SampleFreq.machine SampleFreq.two_cpus) "cpuinfo_max_freq" 0
  = 2400000 * 1000.
Proof.
  refine (proj1 (proj2 (read_cpufreq_value (SampleFreq.machine SampleFreq.two_cpus)
                          "cpuinfo_max_freq" 0)
                  2 [4; 0; 0; 0; 0; 0] EmptyString eq_refl _ _ _)).
  - lia.
  - repeat constructor; unfold is_digit; lia.
  - cbn. lia.
Defined.

(** The loop over the CPU ids in [_odp_system_info_init], run for [n]
    ids from [i] on: the cell of an id in that range whose cpufreq file
    gives a non-zero frequency holds that frequency; every other cell
    of [cpu_hz_max], inside the range or not, is as before, and so is
    the log. *)
Theorem cpufreq_loop_cells (pf : platform) (n : nat) :
  forall (i : Z) (st : state) (j : Z),
    cpu_hz_max (system_info (odp_global_ro (snd (cpufreq_loop pf n i st)))) j
    = (if (i <=? j) && (j <? i + Z.of_nat n)
          && negb (read_cpufreq pf "cpuinfo_max_freq" j =? 0)
       then read_cpufreq pf "cpuinfo_max_freq" j
       else cpu_hz_max (system_info (odp_global_ro st)) j)
    /\ log (snd (cpufreq_loop pf n i st)) = log st.
Proof.
  induction n as [|n IH]; intros i st j; cbn [cpufreq_loop].
  - cbn [ret snd]. split; [|reflexivity].
    destruct ((i <=? j) && (j <? i + Z.of_nat 0)) eqn:E; [|reflexivity].
    apply andb_true_iff in E as [E1 E2].
    apply Z.leb_le in E1. apply Z.ltb_lt in E2. lia.
  - unfold bind.
    destruct (negb (read_cpufreq pf "cpuinfo_max_freq" i =? 0)) eqn:Hi.
    + cbn [modify_system_info bind get set_system_info].
      unfold modify_system_info, bind, get, set_system_info.
      match goal with
      | |- context [cpufreq_loop pf n (i + 1) ?s] =>
          destruct (IH (i + 1) s j) as [C L]; rewrite C, L
      end.
      cbn [log snd odp_global_ro system_info cpu_hz_max with_cpu_hz_max].
      split; [|reflexivity]. unfold array_set.
      destruct (j =? i) eqn:Eji.
      * apply Z.eqb_eq in Eji. subst j. rewrite Hi.
        replace (i + 1 <=? i) with false by (symmetry; apply Z.leb_gt; lia).
        replace (i <=? i) with true by (symmetry; apply Z.leb_le; lia).
        replace (i <? i + Z.of_nat (S n)) with true by (symmetry; apply Z.ltb_lt; lia).
        reflexivity.
      * apply Z.eqb_neq in Eji.
        replace (i + 1 <=? j) with (i <=? j).
        2:{ destruct (i <=? j) eqn:A; symmetry;
              [apply Z.leb_le in A; apply Z.leb_le; lia
              |apply Z.leb_gt in A; apply Z.leb_gt; lia]. }
        replace (j <? i + 1 + Z.of_nat n) with (j <? i + Z.of_nat (S n))
          by (f_equal; lia).
        reflexivity.
    + cbn [ret]. destruct (IH (i + 1) st j) as [C L]. rewrite C, L.
      split; [|reflexivity].
      destruct (j =? i) eqn:Eji.
      * apply Z.eqb_eq in Eji. subst j. rewrite Hi.
        replace (i + 1 <=? i) with false by (symmetry; apply Z.leb_gt; lia).
        rewrite !andb_false_r. reflexivity.
      * apply Z.eqb_neq in Eji.
        replace (i + 1 <=? j) with (i <=? j).
        2:{ destruct (i <=? j) eqn:A; symmetry;
              [apply Z.leb_le in A; apply Z.leb_le; lia
              |apply Z.leb_gt in A; apply Z.leb_gt; lia]. }
        replace (j <? i + 1 + Z.of_nat n) with (j <? i + Z.of_nat (S n))
          by (f_equal; lia).
        reflexivity.
Qed.

(** [odp_cpu_hz_current]: without a cpufreq file for the CPU the
    result is the value of the architecture; with a file that holds a
    decimal number of kHz (first digit not 0, up to sixteen digits) it
    is that number times 1000 and the value of the architecture plays
    no part.  [odp_cpu_hz] is the same for the CPU [sched_getcpu]
    reports and [odp_cpu_hz_id] the same by id. *)
Theorem odp_cpu_hz_current_value (pf : platform)
  (odp_cpu_arch_hz_current : Z -> Z) (sched_getcpu id : Z) :
  (cpufreq_file pf "cpuinfo_cur_freq" id = None ->
   Freq.odp_cpu_hz_current pf odp_cpu_arch_hz_current id
   = odp_cpu_arch_hz_current id)
  /\ (forall (d : Z) (ds : list Z) (tail : string),
        cpufreq_file pf "cpuinfo_cur_freq" id
        = Some (decimal_string (d :: ds) ++ String "010" tail)%string ->
        1 <= d <= 9 -> Forall is_digit ds -> (List.length ds < 16)%nat ->
        Freq.odp_cpu_hz_current pf odp_cpu_arch_hz_current id
        = decimal_value (d :: ds) * 1000)
  /\ Freq.odp_cpu_hz pf odp_cpu_arch_hz_current sched_getcpu
     = Freq.odp_cpu_hz_id pf odp_cpu_arch_hz_current sched_getcpu.
Proof.
  unfold Freq.odp_cpu_hz, Freq.odp_cpu_hz_id, Freq.odp_cpu_hz_current.
  split; [|split; [|reflexivity]].
  - intros H. unfold read_cpufreq. rewrite H. reflexivity.
  - intros d ds tail Hf Hd Hds Hlen.
    destruct (read_cpufreq_decimal pf "cpuinfo_cur_freq" id d ds tail Hf Hd Hds Hlen)
      as [V B].
    destruct (read_cpufreq pf "cpuinfo_cur_freq" id =? 0) eqn:E; [|exact V].
    apply Z.eqb_eq in E. lia.
Qed.

Lemma odp_cpu_hz_current_value_witness :
  Freq.odp_cpu_hz_current (SampleFreq.machine SampleFreq.two_cpus) (fun _ => 77) 2
  = 1200000 * 1000
  /\ Freq.odp_cpu_hz_current (SampleFreq.machine SampleFreq.two_cpus) (fun _ => 77) 1
     = 77.
Proof.
  split.
  - refine (proj1 (proj2 (odp_cpu_hz_current_value
                            (SampleFreq.machine SampleFreq.two_cpus) (fun _ => 77) 0 2))
              1 [2; 0; 0; 0; 0; 0] EmptyString eq_refl _ _ _).
    + lia.
    + repeat constructor; unfold is_digit; lia.
    + cbn. lia.
  - apply (odp_cpu_hz_current_value
             (SampleFreq.machine SampleFreq.two_cpus) (fun _ => 77) 0 1).
    reflexivity.
Defined.

(** *** The scan of the mount table as a whole *)

Lemma mounts_loop_found_iff (dm : data_model) (ds sz : Z) (lines : list string)
  (st : state) (d : string) :
  fst (mounts_loop dm ds sz lines st) = Some d
  <-> exists pre l post,
        lines = pre ++ l :: post
        /\ Forall (fun x => mounts_line dm ds sz x = L_next) pre
        /\ mounts_line dm ds sz l = L_found d.
Proof.
  induction lines as [|a lines IH]; cbn [mounts_loop].
  - split; [discriminate|]. intros (pre & l & post & H & _).
    destruct pre; discriminate.
  - destruct (mounts_line dm ds sz a) eqn:E.
    + split; [discriminate|]. intros (pre & l & post & H & Hpre & Hl).
      destruct pre as [|p pre]; cbn [app] in H; injection H as -> ->.
      * congruence.
      * inversion Hpre; subst. congruence.
    + split.
      * intros H. cbn in H. injection H as <-.
        exists [], a, lines. repeat split; [constructor | exact E].
      * intros (pre & l & post & H & Hpre & Hl).
        destruct pre as [|p pre]; cbn [app] in H; injection H as -> ->.
        -- rewrite E in Hl. injection Hl as ->. reflexivity.
        -- inversion Hpre; subst. congruence.
    + rewrite IH. split.
      * intros (pre & l & post & -> & Hpre & Hl).
        exists (a :: pre), l, post. repeat split; [now constructor | exact Hl].
      * intros (pre & l & post & H & Hpre & Hl).
        destruct pre as [|p pre]; cbn [app] in H; injection H as -> ->.
        -- congruence.
        -- inversion Hpre; subst. exists pre, l, post. repeat split; assumption.
Qed.






(** The first line that ends the scan decides: [get_hugepage_dir]
    returns a directory exactly when some line of the readable mount
    table sets [retval] and every line before it is passed over (none
    of them matches, none is short of fields); the lines after it have
    no influence. *)
Theorem get_hugepage_dir_first_match (dm : data_model) (pf : platform)
  (content : string) (req : Z) (st : state) (d : string) :
  proc_mounts pf = Some content ->
  let st1 := snd (refresh_default_size dm pf st) in
  let ds := default_size st1 in
  let sz := if req =? 0 then ds else req in
  fst (get_hugepage_dir dm pf req st) = Some d
  <-> exists pre l post,
        fgets_all BUFSIZ content = pre ++ l :: post
        /\ Forall (fun x => mounts_line dm ds sz x = L_next) pre
        /\ mounts_line dm ds sz l = L_found d.
Proof.
  intros Hfile st1 ds sz.
  rewrite (get_hugepage_dir_eq dm pf content req st Hfile). cbv zeta.
  apply mounts_loop_found_iff.
Qed.

Lemma get_hugepage_dir_first_match_witness :
  fst (get_hugepage_dir LP64
         (Sample.machine (Some Sample.meminfo_2M) (Some Sample.mounts_default) None)
         0 Sample.boot) = Some "/mnt/huge"%string.
Proof.
  apply (get_hugepage_dir_first_match LP64
           (Sample.machine (Some Sample.meminfo_2M) (Some Sample.mounts_default) None)
           Sample.mounts_default 0 Sample.boot "/mnt/huge"%string eq_refl).
  exists [("proc /proc proc rw,nosuid 0 0" ++ nl)%string],
         ("none /mnt/huge hugetlbfs rw,relatime 0 0" ++ nl)%string, [].
  split; [vm_compute; reflexivity|]. split; [repeat constructor | reflexivity].
Defined.

(** What [get_hugepage_dir] leaves in its static [default_size]: the
    old value when the mount table cannot be opened or the old value
    is not 0, and otherwise what [default_huge_page_size] returns
    (again 0 when that finds nothing, so that the next call reads the
    memory information anew). *)
Theorem get_hugepage_dir_default_size_after (dm : data_model) (pf : platform)
  (req : Z) (st : state) :
  default_size (snd (get_hugepage_dir dm pf req st))
  = match proc_mounts pf with
    | None => default_size st
    | Some _ =>
        if default_size st =? 0
        then fst (HugePage.default_huge_page_size dm pf st)
        else default_size st
    end.
Proof.
  destruct (proc_mounts pf) as [content|] eqn:E.
  - rewrite (get_hugepage_dir_eq dm pf content req st E). cbv zeta.
    rewrite (proj2 (mounts_loop_frame dm _ _ _ _)).
    unfold refresh_default_size, bind, get.
    destruct (default_size st =? 0); [|reflexivity].
    destruct (HugePage.default_huge_page_size dm pf st) as [v s1]. reflexivity.
  - unfold get_hugepage_dir. rewrite E. reflexivity.
Qed.
